(** * Robo Advisor stub: rebalance, pricing, idempotency, acknowledgement

    Shallow embedding of [app/judge_client.py] and [app/main.py].

    Conventions of the embedding.
    - Python [float] values are real numbers ([R]): arithmetic is exact, and
      [np.exp] is the real exponential.  The properties proved below hold
      with margins far above binary64 rounding error.
    - [round(x, 4)] and [round(x)] round to the nearest multiple of the last
      kept digit, ties to the even neighbour.
    - Python dictionaries used as stores are finite maps ([gmap]); Python
      lists are lists.
    - Wall-clock reads, environment variables and the remote data service are
      explicit inputs of the handlers. *)

From Stdlib Require Import Reals Lra Lia ZArith Ascii.
From stdpp Require Import base option list strings pretty sorting gmap.

Open Scope R_scope.

(** ** Rounding *)

Module Rounding.

(** Nearest integer, ties to even: Python's [round(x)]. *)
Definition round_half_even (x : R) : Z :=
  let f := Int_part x in
  let d := x - IZR f in
  if Rlt_dec d (1/2) then f
  else if Rlt_dec (1/2) d then (f + 1)%Z
  else if Z.even f then f else (f + 1)%Z.

(** [round(x, ndigits)] for a float [x]. *)
Definition round_ndigits (x : R) (ndigits : nat) : R :=
  IZR (round_half_even (x * 10 ^ ndigits)) / 10 ^ ndigits.

End Rounding.


(** ** Python values *)

(** What a handler can end with: a returned value, an [HTTPException] with
    its status code and detail, or any other exception (reported by the
    framework as a server error). *)
Inductive outcome (A : Type) : Type :=
  | Ok (a : A)
  | HTTPException (status_code : Z) (detail : string)
  | Raised (exc : string).
Arguments Ok {A} a.
Arguments HTTPException {A} status_code detail.
Arguments Raised {A} exc.

Definition obind {A B} (m : outcome A) (f : A -> outcome B) : outcome B :=
  match m with
  | Ok a => f a
  | HTTPException c d => HTTPException c d
  | Raised e => Raised e
  end.

(** Sequencing: an exception ends the handler at the call that raises. *)
Notation "x <~ m ;; k" := (obind m (fun x => k))
  (at level 100, m at next level, right associativity,
   format "'[v' x  <~  m  ;;  '/' k ']'").

(** Truth value of an [Optional[str]]: [None] and the empty string are
    false. *)
Definition truthy (o : option string) : bool :=
  match o with
  | Some s => negb (bool_decide (s = ""))
  | None => false
  end.

(** [a or b] on optional strings. *)
Definition py_or (a b : option string) : option string :=
  if truthy a then a else b.

Definition is_digit (c : ascii) : bool :=
  (48 <=? nat_of_ascii c)%nat && (nat_of_ascii c <=? 57)%nat.

Fixpoint all_chars (f : ascii -> bool) (s : string) : bool :=
  match s with
  | EmptyString => true
  | String c s' => f c && all_chars f s'
  end.

(** [s.isdigit()] *)
Definition isdigit (s : string) : bool :=
  negb (bool_decide (s = "")) && all_chars is_digit s.

Fixpoint digits_value (acc : nat) (s : string) : nat :=
  match s with
  | EmptyString => acc
  | String c s' => digits_value (10 * acc + (nat_of_ascii c - 48)) s'
  end.

(** [int(cursor)] where [cursor : Optional[str]]: [None] is a [TypeError],
    a string that is not a decimal numeral a [ValueError]. *)
Definition py_int (cursor : option string) : outcome nat :=
  match cursor with
  | None => Raised "TypeError"
  | Some s => if isdigit s then Ok (digits_value 0 s) else Raised "ValueError"
  end.

Definition map_ascii (f : ascii -> ascii) : string -> string :=
  fix go s :=
    match s with
    | EmptyString => EmptyString
    | String c s' => String (f c) (go s')
    end.

Definition lower_ascii (c : ascii) : ascii :=
  let n := nat_of_ascii c in
  if (65 <=? n)%nat && (n <=? 90)%nat then ascii_of_nat (n + 32) else c.

Definition upper_ascii (c : ascii) : ascii :=
  let n := nat_of_ascii c in
  if (97 <=? n)%nat && (n <=? 122)%nat then ascii_of_nat (n - 32) else c.

(** [s.lower()] and [s.upper()] *)
Definition lower : string -> string := map_ascii lower_ascii.
Definition upper : string -> string := map_ascii upper_ascii.

Global Instance R_inhabited : Inhabited R := populate 0.

(** ** [app/judge_client.py] *)

Module judge_client.

Module Client.
Record t := mk {
  clientId : string;
  segment : string;
  riskProfile : string;
  preferences : list (string * string)
}.
End Client.

Module Holding.
Record t := mk { accountId : string; ticker : string; qty : Z }.
End Holding.

Module IndexConstituent.
Record t := mk { ticker : string; weight : R; sector : string }.
End IndexConstituent.

Module PriceBar.
Record t := mk {
  date : string;
  ticker : string;
  close : R;
  adv : option R
}.
End PriceBar.

Module SentimentRecord.
Record t := mk {
  date : string;
  ticker : string;
  label : string;
  score : R;
  source : option string
}.
End SentimentRecord.

(** The mutable in-memory stub: five module-level lists, replaced by
    [/ingest/upload]. *)
Record Fixtures := mkFixtures {
  STUB_CLIENTS : list Client.t;
  STUB_HOLDINGS : list Holding.t;
  STUB_INDEX : list IndexConstituent.t;
  STUB_PRICES : list PriceBar.t;
  STUB_SENTIMENT : list SentimentRecord.t
}.

Definition initial_fixtures : Fixtures := {|
  STUB_CLIENTS := [
    Client.mk "C001" "retail" "balanced" [];
    Client.mk "C002" "retail" "conservative" [];
    Client.mk "C003" "hni" "growth" [];
    Client.mk "C004" "retail" "balanced" [] ];
  STUB_HOLDINGS := [
    Holding.mk "C001" "AAPL" 120;
    Holding.mk "C001" "MSFT" 80;
    Holding.mk "C002" "V" 50;
    Holding.mk "C003" "NVDA" 30;
    Holding.mk "C004" "TSLA" 20;
    Holding.mk "C004" "AAPL" 15 ];
  STUB_INDEX := [
    IndexConstituent.mk "AAPL" 0.035 "Information Technology";
    IndexConstituent.mk "MSFT" 0.040 "Information Technology";
    IndexConstituent.mk "NVDA" 0.030 "Information Technology";
    IndexConstituent.mk "AMZN" 0.028 "Consumer Discretionary";
    IndexConstituent.mk "TSLA" 0.020 "Consumer Discretionary";
    IndexConstituent.mk "V" 0.018 "Financials" ];
  STUB_PRICES := [
    PriceBar.mk "2025-08-25" "AAPL" 227.13 (Some 82000000);
    PriceBar.mk "2025-08-25" "MSFT" 430.55 (Some 25000000);
    PriceBar.mk "2025-08-25" "NVDA" 116.22 (Some 60000000);
    PriceBar.mk "2025-08-25" "AMZN" 171.40 (Some 50000000);
    PriceBar.mk "2025-08-25" "TSLA" 238.65 (Some 150000000);
    PriceBar.mk "2025-08-25" "V" 278.90 (Some 7000000) ];
  STUB_SENTIMENT := [
    SentimentRecord.mk "2025-08-25" "AAPL" "pos" 0.78
      (Some "https://news.example/a");
    SentimentRecord.mk "2025-08-25" "TSLA" "neg" 0.66
      (Some "https://news.example/b");
    SentimentRecord.mk "2025-08-25" "MSFT" "neu" 0.52
      (Some "https://news.example/c") ]
|}.

(** [os.getenv] of the four recognised variables. *)
Record Environ := mkEnviron {
  ROBO_JUDGE_MODE : option string;
  ROBO_JUDGE_URL : option string;
  ROBO_JUDGE_API_KEY : option string;
  ROBO_JUDGE_TIMEOUT : option string
}.

(** The remote data service as the client sees it: the decoded answer of each
    [GET /judge/...] for the query parameters actually sent, or the exception
    raised by the HTTP layer ([raise_for_status], time-out, malformed
    body). *)
Record RemoteService := mkRemote {
  judge_clients : nat -> option string ->
                  outcome (list Client.t * option string);
  judge_holdings : option string -> outcome (list Holding.t);
  judge_index : outcome (list IndexConstituent.t);
  judge_prices : option string -> option string -> outcome (list PriceBar.t);
  judge_sentiment : option string -> option string -> option string ->
                    outcome (list SentimentRecord.t)
}.

Record RoboJudgeClient := mkClient {
  base_url : option string;
  api_key : option string;
  timeout : R;
  use_stub : bool
}.

(** [RoboJudgeClient.__init__] *)
Definition init (base_url api_key : option string) (timeout : R)
    (mode : option string) : RoboJudgeClient :=
  {| base_url := base_url;
     api_key := api_key;
     timeout := timeout;
     use_stub := bool_decide (lower (default "stub" mode) = "stub")
                 || negb (truthy base_url) |}.

Section FromEnv.
(** [float(s)] on a string: [None] when Python raises [ValueError]. *)
Variable float_of_string : string -> option R.

(** [RoboJudgeClient.from_env]; the default time-out ["10.0"] is 10. *)
Definition from_env (env : Environ) : outcome RoboJudgeClient :=
  t <~ match ROBO_JUDGE_TIMEOUT env with
      | None => Ok 10
      | Some s => match float_of_string s with
                  | Some t => Ok t
                  | None => Raised "ValueError"
                  end
      end;;
  Ok (init (ROBO_JUDGE_URL env) (ROBO_JUDGE_API_KEY env) t
           (ROBO_JUDGE_MODE env)).
End FromEnv.

(** A query parameter is sent only when it is truthy
    ([{k: v for k, v in params.items() if v}]). *)
Definition sent (o : option string) : option string :=
  if truthy o then o else None.

Definition nonempty {A} (o : option (list A)) : option (list A) :=
  match o with
  | Some (_ :: _) => o
  | _ => None
  end.

Section Queries.
Variable self : RoboJudgeClient.
Variable net : RemoteService.
Variable fx : Fixtures.

(** [list_clients(limit=100, cursor=None)]: the page of items and the next
    cursor. *)
Definition list_clients (limit : nat) (cursor : option string)
    : outcome (list Client.t * option string) :=
  if use_stub self then
    start <~ (if isdigit (default "0" (py_or cursor (Some "0")))
              then py_int cursor else Ok 0%nat);;
    let items := take limit (drop start (STUB_CLIENTS fx)) in
    let next_cursor :=
      if (start + limit <? length (STUB_CLIENTS fx))%nat
      then Some (pretty (start + limit)%nat) else None in
    Ok (items, next_cursor)
  else judge_clients net limit cursor.

Definition list_holdings (account_ids : option (list string))
    : outcome (list Holding.t) :=
  if use_stub self then
    let ids : option (gset string) := list_to_set <$> nonempty account_ids in
    Ok (List.filter
          (fun h => match ids with
                    | None => true
                    | Some s => bool_decide (Holding.accountId h ∈ s)
                    end)
          (STUB_HOLDINGS fx))
  else judge_holdings net (String.concat "," <$> nonempty account_ids).

Definition get_index : outcome (list IndexConstituent.t) :=
  if use_stub self then Ok (STUB_INDEX fx) else judge_index net.

Definition get_prices (date ticker : option string)
    : outcome (list PriceBar.t) :=
  if use_stub self then
    Ok (List.filter
          (fun p =>
             (negb (truthy date) || bool_decide (Some (PriceBar.date p) = date))
             && (negb (truthy ticker)
                 || bool_decide (Some (PriceBar.ticker p) = ticker)))
          (STUB_PRICES fx))
  else judge_prices net (sent date) (sent ticker).

Definition get_sentiment (from_date to_date : option string)
    (tickers : option (list string)) : outcome (list SentimentRecord.t) :=
  if use_stub self then
    let tick_set : option (gset string) :=
      (fun ts => list_to_set (upper <$> ts)) <$> nonempty tickers in
    Ok (List.filter
          (fun s => match tick_set with
                    | None => true
                    | Some ts =>
                        bool_decide (ts = ∅)
                        || bool_decide (SentimentRecord.ticker s ∈ ts)
                    end)
          (STUB_SENTIMENT fx))
  else judge_sentiment net (sent from_date) (sent to_date)
         (sent (String.concat "," <$> nonempty tickers)).
End Queries.

(** [find_price(prices, ticker, date=None)]: the first bar of that ticker
    (and of that date, when one is given). *)
Definition find_price (prices : list PriceBar.t) (ticker : string)
    (date : option string) : option PriceBar.t :=
  List.find
    (fun p =>
       bool_decide (PriceBar.ticker p = ticker)
       && match date with
          | None => true
          | Some d => bool_decide (PriceBar.date p = d)
          end)
    prices.

End judge_client.

(** ** [app/main.py] *)

Module main.
Import judge_client.

Record RebalanceFilter := mkFilter {
  accountIds : option (list string);
  minCashPct : R;
  maxSecurityWeight : R;
  maxSectorWeight : R
}.

Record RebalanceRequest := mkRequest {
  asOf : string;
  filters : RebalanceFilter;
  sentimentWeight : R;
  riskTargetVol : option R
}.

Record Order := mkOrder {
  accountId : string;
  ticker : string;
  side : string;
  qty : Z;
  execPrice : R;
  ts : string
}.

Record RebalanceResponse := mkResponse {
  requestId : string;
  orders : list Order
}.

(** [s_curve_price(prev_close, order_qty, adv, k=4.0, half_adv=0.1)] *)
Definition s_curve_price (prev_close : R) (order_qty : Z) (adv : R)
    (k half_adv : R) : R :=
  let x := IZR (Z.abs order_qty) / (half_adv * Rmax adv 1) in
  let impact := 1 / (1 + exp (- k * (x - 1))) in
  let signed := if (0 <? order_qty)%Z then impact else - impact in
  Rounding.round_ndigits (prev_close * (1 + 0.002 * signed)) 4.

(** The wall-clock reads of one handler run. *)
Record Clock := mkClock {
  current_minute_bucket : string;
  now_iso : nat -> string;      (* the n-th call of [now_iso()] *)
  timestamp : Z;                (* [int(datetime.now(utc).timestamp())] *)
  strftime : string             (* [now.strftime('%Y%m%d-%H%M%S')] *)
}.

(** The process state: the fixture lists of [judge_client] and the three
    idempotency stores. *)
Record State := mkState {
  fixtures : Fixtures;
  INGESTED_CHECKSUMS : gmap string string;
  REBALANCE_RESULTS : gmap string RebalanceResponse;
  ACKED_REQUESTS : gmap string bool
}.

Definition initial_state : State :=
  {| fixtures := initial_fixtures;
     INGESTED_CHECKSUMS := ∅;
     REBALANCE_RESULTS := ∅;
     ACKED_REQUESTS := ∅ |}.

(** [pb.adv or 1_000_000] *)
Definition adv_or_default (adv : option R) : R :=
  match adv with
  | Some a => if Req_dec_T a 0 then 1000000 else a
  | None => 1000000
  end.

(** The sentiment tilt of lines 184-185: from the first record of the
    ticker, [0.0] without one. *)
Definition sentiment_tilt (senti : list SentimentRecord.t) : R :=
  match List.find (fun s => bool_decide (SentimentRecord.ticker s = "AAPL"))
                  senti with
  | Some senti_aapl => (SentimentRecord.score senti_aapl - 0.5) * 2
  | None => 0
  end.

(** One turn of the order loop: the price of the bucket is computed on its
    first use and read back from [exec_price_bucket] afterwards. *)
Definition order_step (clk : Clock) (pb : PriceBar.t) (qty_common : Z)
    (bucket : string) (st : gmap string R * list Order) (acc : string)
    : gmap string R * list Order :=
  let '(exec_price_bucket, orders) := st in
  let key := "AAPL@" +:+ bucket in
  let exec_price_bucket :=
    match exec_price_bucket !! key with
    | None =>
        <[key := s_curve_price (PriceBar.close pb) qty_common
                   (adv_or_default (PriceBar.adv pb)) 4 0.1]> exec_price_bucket
    | Some _ => exec_price_bucket
    end in
  (exec_price_bucket,
   orders ++ [mkOrder acc "AAPL" "BUY" qty_common (exec_price_bucket !!! key)
                      (now_iso clk (length orders))]).

Section Handlers.
Variable float_of_string : string -> option R.

(** Lines 165-168: the explicit account list, or every client of the
    first page of [list_clients()] when the list is absent or empty. *)
Definition resolve_accounts (judge : RoboJudgeClient) (net : RemoteService)
    (fx : Fixtures) (req : RebalanceRequest) : outcome (list string) :=
  match nonempty (accountIds (filters req)) with
  | Some accounts => Ok accounts
  | None =>
      clients <~ list_clients judge net fx 100 None;;
      Ok (Client.clientId <$> clients.1)
  end.

(** Lines 170-175: the bar of the as-of date, else the first bar of the
    ticker in the unfiltered price set. *)
Definition resolve_price (judge : RoboJudgeClient) (net : RemoteService)
    (fx : Fixtures) (req : RebalanceRequest) : outcome (option PriceBar.t) :=
  prices_asof <~ get_prices judge net fx (Some (asOf req)) None;;
  match find_price prices_asof "AAPL" (Some (asOf req)) with
  | Some pb => Ok (Some pb)
  | None =>
      prices_any <~ get_prices judge net fx None None;;
      Ok (find_price prices_any "AAPL" None)
  end.

(** The computation of [rebalance] after the idempotency look-up and
    before the result is stored (lines 163-201).  The quantity of line 192
    is computed on real numbers: the product and the rounding are exact and
    never out of range.  The code computes it on binary64 floats, where
    [int(round(...))] raises [OverflowError] once the product exceeds the
    float range, and where a product within one unit in the last place of a
    half-way value may round to the other neighbour. *)
Definition rebalance_compute (env : Environ) (net : RemoteService)
    (clk : Clock) (req : RebalanceRequest) (fx : Fixtures)
    : outcome RebalanceResponse :=
  judge <~ from_env float_of_string env;;
  accounts <~ resolve_accounts judge net fx req;;
  pb <~ resolve_price judge net fx req;;
  match pb with
  | None =>
      HTTPException 503
        ("No price found for AAPL (asOf=" +:+ asOf req +:+
         "). Upload prices via /ingest/upload or configure Robo Judge.")
  | Some pb =>
      senti <~ get_sentiment judge net fx None None (Some ["AAPL"]);;
      let tilt := sentiment_tilt senti in
      let bucket := current_minute_bucket clk in
      let base_qty := 10 in
      let qty_common :=
        Z.max 1 (Rounding.round_half_even
                   (base_qty * (1 + sentimentWeight req * tilt))) in
      let orders :=
        (foldl (order_step clk pb qty_common bucket) (∅, []) accounts).2 in
      let request_id := "rb-" +:+ pretty (timestamp clk) in
      Ok (mkResponse request_id orders)
  end.

(** [POST /rebalance] *)
Definition rebalance (env : Environ) (net : RemoteService) (clk : Clock)
    (req : RebalanceRequest) (idempotency_key : option string) (σ : State)
    : outcome RebalanceResponse * State :=
  let hit := if truthy idempotency_key
             then idempotency_key ≫= (fun k => REBALANCE_RESULTS σ !! k)
             else None in
  match hit with
  | Some stored => (Ok stored, σ)
  | None =>
      match rebalance_compute env net clk req (fixtures σ) with
      | Ok resp =>
          (Ok resp,
           match idempotency_key with
           | Some k =>
               if truthy idempotency_key
               then mkState (fixtures σ) (INGESTED_CHECKSUMS σ)
                      (<[k := resp]> (REBALANCE_RESULTS σ)) (ACKED_REQUESTS σ)
               else σ
           | None => σ
           end)
      | failure => (failure, σ)
      end
  end.

(** *** Ingestion *)

(** [int(float_value)]: truncation towards zero. *)
Definition trunc (r : R) : Z :=
  if Rle_dec 0 r then Int_part r else (- Int_part (- r))%Z.

(** [float(v)] where [v] is an optional string ([r.get(...)]). *)
Definition py_float (v : option string) : outcome R :=
  match v with
  | None => Raised "TypeError"
  | Some s => match float_of_string s with
              | Some x => Ok x
              | None => Raised "ValueError"
              end
  end.

(** [float(v or "0")]; the text ["0"] is the float 0. *)
Definition py_float_or_zero (v : option string) : outcome R :=
  if truthy v then py_float v else Ok 0.

(** A required [str] field of a pydantic model. *)
Definition str_field (v : option string) : outcome string :=
  match v with
  | Some s => Ok s
  | None => Raised "ValidationError"
  end.

(** A row of [csv.DictReader] has every column of the header as a key; the
    cell is its text, or [None] where the row is shorter than the header.
    [r.get(k)] is [None] for a column that is not in the header and for a
    missing cell alike. *)
Definition row_get (r : gmap string (option string)) (k : string)
    : option string :=
  match r !! k with
  | Some cell => cell
  | None => None
  end.

(** [r.get(k, d)]: the default stands in for a column that is not in the
    header, not for a missing cell. *)
Definition row_get_default (r : gmap string (option string)) (k d : string)
    : option string :=
  match r !! k with
  | Some cell => cell
  | None => Some d
  end.

Definition client_of_row (r : gmap string (option string))
    : outcome Client.t :=
  clientId <~ str_field (py_or (row_get r "client_id") (row_get r "clientId"));;
  segment <~ str_field (row_get_default r "segment" "retail");;
  riskProfile <~ str_field
    (py_or (row_get r "risk_profile")
           (row_get_default r "riskProfile" "balanced"));;
  Ok (Client.mk clientId segment riskProfile []).

Definition holding_of_row (r : gmap string (option string))
    : outcome Holding.t :=
  qty <~ py_float_or_zero (py_or (row_get r "qty") (row_get r "quantity"));;
  accountId <~ str_field
    (py_or (py_or (row_get r "client_id") (row_get r "account_id"))
           (row_get r "accountId"));;
  ticker <~ str_field (row_get r "ticker");;
  Ok (Holding.mk accountId ticker (trunc qty)).

Definition index_of_row (r : gmap string (option string))
    : outcome IndexConstituent.t :=
  weight <~ py_float_or_zero
    (py_or (row_get r "weight") (row_get r "target_weight"));;
  ticker <~ str_field (row_get r "ticker");;
  sector <~ str_field (row_get_default r "sector" "Unknown");;
  Ok (IndexConstituent.mk ticker weight sector).

Definition price_of_row (r : gmap string (option string))
    : outcome PriceBar.t :=
  close <~ py_float (row_get r "close");;
  adv <~ (if truthy (row_get r "adv")
          then (a <~ py_float (row_get r "adv");; Ok (Some a))
          else Ok None);;
  date <~ str_field (row_get r "date");;
  ticker <~ str_field (row_get r "ticker");;
  Ok (PriceBar.mk date ticker close adv).

(** A value of a decoded JSON object, as far as the handler tells them
    apart. *)
Inductive json :=
  | JNull
  | JBool (b : bool)
  | JNum (x : R)
  | JStr (s : string)
  | JOther.

Definition json_str (v : option json) : outcome string :=
  match v with
  | Some (JStr s) => Ok s
  | _ => Raised "ValidationError"
  end.

Definition json_opt_str (v : option json) : outcome (option string) :=
  match v with
  | None | Some JNull => Ok None
  | Some (JStr s) => Ok (Some s)
  | _ => Raised "ValidationError"
  end.

Definition json_float (v : option json) : outcome R :=
  match v with
  | Some (JNum x) => Ok x
  | Some (JBool b) => Ok (if b then 1 else 0)
  | Some (JStr s) => py_float (Some s)
  | _ => Raised "TypeError"
  end.

Definition sentiment_of_line (line : outcome (gmap string json))
    : outcome SentimentRecord.t :=
  d <~ line;;
  score <~ json_float (d !! "score");;
  date <~ json_str (d !! "date");;
  ticker <~ json_str (d !! "ticker");;
  label <~ json_str (d !! "label");;
  source <~ json_opt_str (d !! "source");;
  Ok (SentimentRecord.mk date ticker label score source).

(** A member of the archive, by what its two readers give: [_read_csv]
    (all rows, or the exception of the decoder) and the line loop over
    [sentiment.jsonl] (for each non-blank line, the object decoded by
    [json.loads] or its exception). *)
Record Member := mkMember {
  read_csv : outcome (list (gmap string (option string)));
  json_lines : list (outcome (gmap string json))
}.

(** The uploaded file: the SHA-256 digest of its bytes and its zip
    directory ([None] when the bytes are not a zip archive). *)
Record UploadFile := mkUpload {
  sha256_hexdigest : string;
  ZipFile : option (gmap string Member)
}.

Record IngestResponse := mkIngest {
  datasetVersion : string;
  checksum : string;
  receivedFiles : list string;
  ingest_asOf : option string;
  idempotent : option bool;
  parsed_prices_csv : option bool
}.

(** [lst.clear()] followed by one [append] per row; a row that raises
    leaves the records appended before it. *)
Fixpoint append_each {A B} (conv : A -> outcome B) (rows : list A)
    (lst : list B) : outcome unit * list B :=
  match rows with
  | [] => (Ok tt, lst)
  | r :: rows' =>
      match conv r with
      | Ok b => append_each conv rows' (lst ++ [b])
      | HTTPException c d => (HTTPException c d, lst)
      | Raised e => (Raised e, lst)
      end
  end.

Definition load_csv {B} (zf : gmap string Member) (name : string)
    (conv : gmap string (option string) -> outcome B)
    (set : list B -> Fixtures -> Fixtures) (fx : Fixtures)
    : outcome unit * Fixtures :=
  match zf !! name with
  | None => (Ok tt, fx)
  | Some m =>
      match read_csv m with
      | Ok rows =>
          let '(r, lst) := append_each conv rows [] in (r, set lst fx)
      | HTTPException c d => (HTTPException c d, fx)
      | Raised e => (Raised e, fx)
      end
  end.

Definition load_sentiment (zf : gmap string Member) (fx : Fixtures)
    : outcome unit * Fixtures :=
  match zf !! "sentiment.jsonl" with
  | None => (Ok tt, fx)
  | Some m =>
      let '(r, lst) := append_each sentiment_of_line (json_lines m) [] in
      (r, mkFixtures (STUB_CLIENTS fx) (STUB_HOLDINGS fx) (STUB_INDEX fx)
            (STUB_PRICES fx) lst)
  end.

Definition and_then (a b : Fixtures -> outcome unit * Fixtures)
    (fx : Fixtures) : outcome unit * Fixtures :=
  match a fx with
  | (Ok _, fx') => b fx'
  | failure => failure
  end.

Definition required_any : list (gset string) :=
  [ {["clients.csv"; "holdings.csv"; "index.csv"; "prices.csv";
      "sentiment.jsonl"]};
    {["clients.csv"; "holdings.csv"; "index.csv"; "prices.parquet";
      "sentiment.jsonl"]} ].

(** [sorted(names)] *)
Definition sorted (names : gset string) : list string :=
  merge_sort (fun a b => Is_true (String.leb a b)) (elements names).

(** [repr] of a [str], its characters read as code points below 256: the
    text is put in single quotes, or in double quotes when it holds a single
    quote and no double quote; the quote in use and the backslash are
    escaped with a backslash; tab, newline and carriage return become [\t],
    [\n] and [\r]; the other characters that are not printable (below 32,
    127 to 160, and 173) become [\xhh]. *)
Definition hex_digit (n : nat) : ascii :=
  ascii_of_nat (if (n <? 10)%nat then 48 + n else 87 + n).

Definition has_char (c : ascii) (s : string) : bool :=
  negb (all_chars (fun x => negb (Ascii.eqb x c)) s).

Definition repr_char (quote c : ascii) : string :=
  let n := nat_of_ascii c in
  let backslash := ascii_of_nat 92 in
  if Ascii.eqb c quote || Ascii.eqb c backslash
  then String backslash (String c "")
  else if (n =? 9)%nat then String backslash "t"
  else if (n =? 10)%nat then String backslash "n"
  else if (n =? 13)%nat then String backslash "r"
  else if (n <? 32)%nat || ((127 <=? n)%nat && (n <=? 160)%nat)
          || (n =? 173)%nat
  then String backslash
         (String "x" (String (hex_digit (n / 16))
                        (String (hex_digit (n mod 16)) "")))
  else String c "".

Definition repr_str (s : string) : string :=
  let double_quote := ascii_of_nat 34 in
  let quote := if has_char "'" s && negb (has_char double_quote s)
               then double_quote else "'"%char in
  String quote
    ((fix go (t : string) : string :=
        match t with
        | EmptyString => String quote ""
        | String c t' => repr_char quote c +:+ go t'
        end) s).

(** [repr] of a list of [str]. *)
Definition repr_list (l : list string) : string :=
  "[" +:+ String.concat ", " (repr_str <$> l) +:+ "]".

(** Lines 67-68: the deduplication key, [idempotency_key or checksum]. *)
Definition ingest_key (file : UploadFile) (idempotency_key : option string)
    : string :=
  let checksum := "sha256:" +:+ sha256_hexdigest file in
  default checksum (py_or idempotency_key (Some checksum)).

(** [POST /ingest/upload] *)
Definition ingest_upload (clk : Clock) (file : UploadFile)
    (asOf sourceId idempotency_key : option string) (σ : State)
    : outcome IngestResponse * State :=
  let checksum := "sha256:" +:+ sha256_hexdigest file in
  let key := ingest_key file idempotency_key in
  match INGESTED_CHECKSUMS σ !! key with
  | Some version =>
      (Ok (mkIngest version checksum [] asOf (Some true) None), σ)
  | None =>
      match ZipFile file with
      | None => (Raised "BadZipFile", σ)
      | Some zf =>
          let names : gset string := dom zf in
          if negb (existsb (fun req => bool_decide (req ⊆ names))
                           required_any)
          then
            (HTTPException 400
               ("Zip must include clients.csv, holdings.csv, index.csv, prices.csv (or prices.parquet), sentiment.jsonl. Found: "
                +:+ repr_list (sorted names)), σ)
          else
            let load :=
              and_then
                (load_csv zf "clients.csv" client_of_row
                   (fun l fx => mkFixtures l (STUB_HOLDINGS fx)
                      (STUB_INDEX fx) (STUB_PRICES fx) (STUB_SENTIMENT fx)))
              (and_then
                (load_csv zf "holdings.csv" holding_of_row
                   (fun l fx => mkFixtures (STUB_CLIENTS fx) l
                      (STUB_INDEX fx) (STUB_PRICES fx) (STUB_SENTIMENT fx)))
              (and_then
                (load_csv zf "index.csv" index_of_row
                   (fun l fx => mkFixtures (STUB_CLIENTS fx)
                      (STUB_HOLDINGS fx) l (STUB_PRICES fx)
                      (STUB_SENTIMENT fx)))
              (and_then
                (load_csv zf "prices.csv" price_of_row
                   (fun l fx => mkFixtures (STUB_CLIENTS fx)
                      (STUB_HOLDINGS fx) (STUB_INDEX fx) l
                      (STUB_SENTIMENT fx)))
                (load_sentiment zf)))) in
            match load (fixtures σ) with
            | (Ok _, fx) =>
                let dataset_version := "v" +:+ strftime clk in
                (Ok (mkIngest dataset_version checksum (sorted names) asOf
                       None (Some (bool_decide ("prices.csv" ∈ names)))),
                 mkState fx (<[key := dataset_version]> (INGESTED_CHECKSUMS σ))
                   (REBALANCE_RESULTS σ) (ACKED_REQUESTS σ))
            | (HTTPException c d, fx) =>
                (HTTPException c d,
                 mkState fx (INGESTED_CHECKSUMS σ) (REBALANCE_RESULTS σ)
                   (ACKED_REQUESTS σ))
            | (Raised e, fx) =>
                (Raised e,
                 mkState fx (INGESTED_CHECKSUMS σ) (REBALANCE_RESULTS σ)
                   (ACKED_REQUESTS σ))
            end
      end
  end.

(** *** Acknowledgement *)

Record AckResponse := mkAck {
  status : string;
  duplicate : bool;
  received_requestId : string;
  received_orders : nat
}.

(** [POST /ack] *)
Definition ack (resp : RebalanceResponse) (σ : State) : AckResponse * State :=
  let duplicate := default false (ACKED_REQUESTS σ !! requestId resp) in
  (mkAck "ok" duplicate (requestId resp) (length (orders resp)),
   mkState (fixtures σ) (INGESTED_CHECKSUMS σ) (REBALANCE_RESULTS σ)
     (<[requestId resp := true]> (ACKED_REQUESTS σ))).

(** *** Runs of the server *)

(** One request to the server, with what its handler reads from outside
    the process state. *)
Inductive request :=
  | IngestUpload (clk : Clock) (file : UploadFile)
      (asOf sourceId idempotency_key : option string)
  | Rebalance (env : Environ) (net : RemoteService) (clk : Clock)
      (req : RebalanceRequest) (idempotency_key : option string)
  | Ack (resp : RebalanceResponse).

Definition handle (σ : State) (r : request) : State :=
  match r with
  | IngestUpload clk file asOf sourceId key =>
      (ingest_upload clk file asOf sourceId key σ).2
  | Rebalance env net clk req key => (rebalance env net clk req key σ).2
  | Ack resp => (ack resp σ).2
  end.

(** The state after a sequence of requests, handled one after the other. *)
Definition run (σ : State) (history : list request) : State :=
  foldl handle σ history.

(** Whether an acknowledgement of [id] occurs in the history. *)
Definition acked_in (id : string) (history : list request) : bool :=
  existsb (fun r => match r with
                    | Ack resp => bool_decide (requestId resp = id)
                    | _ => false
                    end) history.

End Handlers.

End main.

(** * Vocabulary of the properties *)

(** A sentiment record of another ticker than the tracked one. *)
Definition not_aapl (s : judge_client.SentimentRecord.t) : Prop :=
  judge_client.SentimentRecord.ticker s <> "AAPL".

(** A price bar of another ticker than the tracked one. *)
Definition other_ticker (p : judge_client.PriceBar.t) : Prop :=
  judge_client.PriceBar.ticker p <> "AAPL".

(** The shared order quantity of a batch (line 192). *)
Definition qty_common (req : main.RebalanceRequest)
    (senti : list judge_client.SentimentRecord.t) : Z :=
  Z.max 1 (Rounding.round_half_even
             (10 * (1 + main.sentimentWeight req * main.sentiment_tilt senti))).

(** The batch the order loop builds: one BUY per account, in order, all at
    the same quantity and price, each with its own timestamp. *)
Definition batch (clk : main.Clock) (q : Z) (price : R)
    (accounts : list string) : list main.Order :=
  imap (fun i acc => main.mkOrder acc "AAPL" "BUY" q price (main.now_iso clk i))
       accounts.

(** The process environment without any [ROBO_JUDGE_*] variable. *)
Definition stub_env : judge_client.Environ :=
  judge_client.mkEnviron None None None None.

(** Text made of ASCII characters only. *)
Definition is_ascii_text (s : string) : bool :=
  all_chars (fun c => (nat_of_ascii c <? 128)%nat) s.

(** A batch of BUY orders of AAPL that share one quantity, at least 1, and
    one price. *)
Definition uniform_buy_batch (resp : main.RebalanceResponse) : Prop :=
  exists (q : Z) (price : R),
    (1 <= q)%Z /\
    Forall (fun o => main.ticker o = "AAPL" /\ main.side o = "BUY"
                     /\ main.qty o = q /\ main.execPrice o = price)
           (main.orders resp).

(** ** Sample inputs *)

(** [float(s)] of a runtime that parses nothing; the samples below carry no
    numeric text. *)
Definition no_float : string -> option R := fun _ => None.

(** A data service that cannot be reached. *)
Definition offline : judge_client.RemoteService :=
  judge_client.mkRemote
    (fun _ _ => Raised "ConnectError") (fun _ => Raised "ConnectError")
    (Raised "ConnectError") (fun _ _ => Raised "ConnectError")
    (fun _ _ _ => Raised "ConnectError").

Definition noon : main.Clock :=
  main.mkClock "2025-08-25T12:00:00+00:00"
    (fun _ => "2025-08-25T12:00:30+00:00") 1756123230 "20250825-120030".

(** A request for one account, as of the date of the stub bars. *)
Definition request_c001 : main.RebalanceRequest :=
  main.mkRequest "2025-08-25" (main.mkFilter (Some ["C001"]) 0.02 0.10 0.25)
    0.20 None.

(** The same, as of a date without bars. *)
Definition request_next_day : main.RebalanceRequest :=
  main.mkRequest "2025-08-26" (main.mkFilter (Some ["C001"]) 0.02 0.10 0.25)
    0.20 None.

(** A process whose price list holds no bar of AAPL. *)
Definition state_without_aapl : main.State :=
  main.mkState
    (judge_client.mkFixtures [] [] []
       [judge_client.PriceBar.mk "2025-08-25" "MSFT" 430.55 (Some 25000000)] [])
    ∅ ∅ ∅.

(** A process whose bar of AAPL has no ADV. *)
Definition state_without_adv : main.State :=
  main.mkState
    (judge_client.mkFixtures [] [] []
       [judge_client.PriceBar.mk "2025-08-25" "AAPL" 227.13 None] [])
    ∅ ∅ ∅.

(** An upload of an empty zip archive. *)
Definition empty_archive : main.UploadFile :=
  main.mkUpload "8739c76e681f900923b900c9df0ef75cf421d39cabb54650c4b9ad19b6a76d85"
    (Some ∅).

(** The five loads of [ingest_upload] (lines 88-143), in their order: each
    one runs when its member is in the archive and when no earlier one has
    raised. *)
Definition load_all (float_of_string : string -> option R)
    (zf : gmap string main.Member)
    : judge_client.Fixtures -> outcome unit * judge_client.Fixtures :=
  main.and_then
    (main.load_csv zf "clients.csv" main.client_of_row
       (fun l fx => judge_client.mkFixtures l (judge_client.STUB_HOLDINGS fx)
          (judge_client.STUB_INDEX fx) (judge_client.STUB_PRICES fx)
          (judge_client.STUB_SENTIMENT fx)))
  (main.and_then
    (main.load_csv zf "holdings.csv" (main.holding_of_row float_of_string)
       (fun l fx => judge_client.mkFixtures (judge_client.STUB_CLIENTS fx) l
          (judge_client.STUB_INDEX fx) (judge_client.STUB_PRICES fx)
          (judge_client.STUB_SENTIMENT fx)))
  (main.and_then
    (main.load_csv zf "index.csv" (main.index_of_row float_of_string)
       (fun l fx => judge_client.mkFixtures (judge_client.STUB_CLIENTS fx)
          (judge_client.STUB_HOLDINGS fx) l (judge_client.STUB_PRICES fx)
          (judge_client.STUB_SENTIMENT fx)))
  (main.and_then
    (main.load_csv zf "prices.csv" (main.price_of_row float_of_string)
       (fun l fx => judge_client.mkFixtures (judge_client.STUB_CLIENTS fx)
          (judge_client.STUB_HOLDINGS fx) (judge_client.STUB_INDEX fx) l
          (judge_client.STUB_SENTIMENT fx)))
    (main.load_sentiment float_of_string zf)))).

(** A member without rows and without lines. *)
Definition empty_member : main.Member := main.mkMember (Ok []) [].

(** An upload of an archive that holds the five members: one client row,
    the other members empty. *)
Definition minimal_archive : main.UploadFile :=
  main.mkUpload "5f2b51ca2fdc5baa31ec02e002f69aec083f6c1b8d1c1a8d3e1c7a1e1a9b7f0c"
    (Some (list_to_map
             [("clients.csv",
               main.mkMember (Ok [ {["client_id" := Some "C900"]} ]) []);
              ("holdings.csv", empty_member);
              ("index.csv", empty_member); ("prices.csv", empty_member);
              ("sentiment.jsonl", empty_member)])).

(** The same with [prices.parquet] in the place of [prices.csv]. *)
Definition parquet_archive : main.UploadFile :=
  main.mkUpload "a3c1e5b7d9f1a3c5e7b9d1f3a5c7e9b1d3f5a7c9e1b3d5f7a9c1e3b5d7f9a1c3"
    (Some (list_to_map
             [("clients.csv",
               main.mkMember (Ok [ {["client_id" := Some "C900"]} ]) []);
              ("holdings.csv", empty_member);
              ("index.csv", empty_member); ("prices.parquet", empty_member);
              ("sentiment.jsonl", empty_member)])).

(** An upload whose client file, with the header [client_id,segment], has
    the row [C900,retail] followed by the row [,retail], whose client
    identifier is empty. *)
Definition broken_clients_archive : main.UploadFile :=
  main.mkUpload "0c6e1a0f6b0e3c1f9a4f6f7d8f2b1f3e5a7c9d1b3f5a7c9e1b3d5f7a9c1e3b5d"
    (Some (list_to_map
             [("clients.csv",
               main.mkMember
                 (Ok [ {["client_id" := Some "C900"; "segment" := Some "retail"]};
                       {["client_id" := Some ""; "segment" := Some "retail"]} ])
                 []);
              ("holdings.csv", empty_member); ("index.csv", empty_member);
              ("prices.csv", empty_member);
              ("sentiment.jsonl", empty_member)])).

(** * Properties *)

(** ** Rounding *)

Section RoundingFacts.
Import Rounding.

Lemma Int_part_bounds (x : R) : IZR (Int_part x) <= x < IZR (Int_part x) + 1.
Proof. destruct (base_Int_part x) as [H1 H2]. lra. Qed.

Lemma round_half_even_cases (x : R) :
  round_half_even x = Int_part x \/ round_half_even x = (Int_part x + 1)%Z.
Proof.
  unfold round_half_even.
  repeat (destruct (Rlt_dec _ _)); try destruct (Z.even _); auto.
Qed.

(** The rounded value is within one half of the argument. *)
Lemma round_half_even_error (x : R) :
  x - 1/2 <= IZR (round_half_even x) <= x + 1/2.
Proof.
  pose proof (Int_part_bounds x) as Hb.
  unfold round_half_even.
  destruct (Rlt_dec (x - IZR (Int_part x)) (1/2)) as [Hlt|Hge].
  - lra.
  - destruct (Rlt_dec (1/2) (x - IZR (Int_part x))) as [Hgt|Hle].
    + rewrite plus_IZR. lra.
    + destruct (Z.even (Int_part x)); [|rewrite plus_IZR]; lra.
Qed.

Lemma round_half_even_ge (x : R) (m : Z) :
  IZR m <= x -> (m <= round_half_even x)%Z.
Proof.
  intros Hm. pose proof (round_half_even_error x) as [Hlo _].
  assert (IZR m - 1 < IZR (round_half_even x)) as H by lra.
  rewrite <- minus_IZR in H. apply lt_IZR in H. lia.
Qed.

Lemma round_half_even_le (x : R) (m : Z) :
  x <= IZR m -> (round_half_even x <= m)%Z.
Proof.
  intros Hm. pose proof (round_half_even_error x) as [_ Hhi].
  assert (IZR (round_half_even x) < IZR m + 1) as H by lra.
  rewrite <- plus_IZR in H. apply lt_IZR in H. lia.
Qed.

(** Integers are fixed points. *)
Lemma round_half_even_IZR (m : Z) : round_half_even (IZR m) = m.
Proof.
  apply Z.le_antisymm.
  - apply round_half_even_le; lra.
  - apply round_half_even_ge; lra.
Qed.

(** Rounding is monotone. *)
Lemma round_half_even_mono (x y : R) :
  x <= y -> (round_half_even x <= round_half_even y)%Z.
Proof.
  intros Hxy.
  destruct (Z_le_gt_dec (round_half_even x) (round_half_even y)) as [|Hgt];
    [done|exfalso].
  pose proof (round_half_even_error x) as [Hx1 Hx2].
  pose proof (round_half_even_error y) as [Hy1 Hy2].
  assert (round_half_even y + 1 <= round_half_even x)%Z as Hz by lia.
  apply IZR_le in Hz. rewrite plus_IZR in Hz.
  assert (x = y) as -> by lra. lia.
Qed.

Lemma pow10_4 : 10 ^ 4 = 10000.
Proof. simpl. lra. Qed.

Lemma round_ndigits_4 (x : R) :
  round_ndigits x 4 = IZR (round_half_even (x * 10000)) / 10000.
Proof. unfold round_ndigits. by rewrite pow10_4. Qed.

(** [round(x, 4)] moves [x] by at most half a unit of the fourth decimal. *)
Lemma round_ndigits_error (x : R) :
  x - 0.00005 <= round_ndigits x 4 <= x + 0.00005.
Proof.
  rewrite round_ndigits_4.
  pose proof (round_half_even_error (x * 10000)). lra.
Qed.

(** Multiples of 0.0001 are fixed points of [round(x, 4)]. *)
Lemma round_ndigits_grid (m : Z) :
  round_ndigits (IZR m / 10000) 4 = IZR m / 10000.
Proof.
  rewrite round_ndigits_4.
  replace (IZR m / 10000 * 10000) with (IZR m) by lra.
  by rewrite round_half_even_IZR.
Qed.

Lemma round_ndigits_mono (x y : R) :
  x <= y -> round_ndigits x 4 <= round_ndigits y 4.
Proof.
  intros Hxy. rewrite !round_ndigits_4.
  assert (x * 10000 <= y * 10000) as H by lra.
  apply round_half_even_mono, IZR_le in H. lra.
Qed.

End RoundingFacts.

(** ** The impact curve *)

Section PricingFacts.
Import Rounding main.

Lemma round_half_even_unique (x : R) (m : Z) :
  IZR m - 1/2 < x < IZR m + 1/2 -> round_half_even x = m.
Proof.
  intros [Hlo Hhi]. pose proof (round_half_even_error x) as [H1 H2].
  assert (IZR m - 1 < IZR (round_half_even x) < IZR m + 1) as [Ha Hb] by lra.
  rewrite <- minus_IZR in Ha. rewrite <- plus_IZR in Hb.
  apply lt_IZR in Ha, Hb. lia.
Qed.

(** The logistic sigmoid lies strictly between 0 and 1. *)
Lemma sigmoid_bounds (t : R) : 0 < 1 / (1 + exp t) < 1.
Proof.
  pose proof (exp_pos t) as He.
  split.
  - apply Rdiv_lt_0_compat; lra.
  - apply Rmult_lt_reg_r with (1 + exp t); [lra|].
    unfold Rdiv. rewrite Rmult_assoc, Rinv_l by lra. lra.
Qed.

Lemma sigmoid_between (lo hi e : R) :
  0 <= lo -> lo <= e <= hi -> 1 / (1 + hi) <= 1 / (1 + e) <= 1 / (1 + lo).
Proof.
  intros Hlo [H1 H2]. unfold Rdiv. rewrite !Rmult_1_l.
  split; apply Rinv_le_contravar; lra.
Qed.

Lemma exp_small_bounds (t : R) : 0 <= t < 1 -> 1 + t <= exp t <= 1 / (1 - t).
Proof.
  intros [H0 H1]. split; [apply exp_ineq1_le|].
  pose proof (exp_ineq1_le (- t)) as Hn.
  pose proof (exp_pos t) as Hp.
  assert (exp t * exp (- t) = 1) as Hinv
    by (rewrite <- exp_plus, Rplus_opp_r; apply exp_0).
  apply Rmult_le_reg_r with (1 - t); [lra|].
  unfold Rdiv. rewrite Rmult_assoc, Rinv_l by lra. nra.
Qed.

Lemma exp_double (t a b a' b' : R) :
  a <= exp t <= b -> 0 <= a -> a' <= a * a -> b * b <= b' ->
  a' <= exp (2 * t) <= b'.
Proof.
  intros [Ha Hb] H0 Ha' Hb'.
  replace (2 * t) with (t + t) by lra. rewrite exp_plus. nra.
Qed.

Lemma exp_4_le_81 : exp 4 <= 81.
Proof.
  pose proof exp_le_3 as H3. pose proof (exp_pos 1) as Hp.
  replace 4 with (2 * (2 * 1)) by lra.
  assert (0 <= exp 1 <= 3) as H by lra.
  apply (exp_double _ _ _ 0 9) in H; [|lra..].
  apply (exp_double _ _ _ 0 81) in H; [|lra..].
  lra.
Qed.

(** The exponential of the buy of 10 shares against an ADV of 82 million,
    by fourteen squarings of the bounds of [exp (t / 2^14)]. *)
Lemma exp_buy_window : 54.57 <= exp (4 - 1 / 205000) <= 54.63.
Proof.
  pose proof (exp_small_bounds ((4 - 1 / 205000) / 16384)) as H.
  assert (1.000244140327267 <= exp ((4 - 1 / 205000) / 16384)
          <= 1.000244199946323) as H0 by lra.
  clear H. rename H0 into H.
  apply (exp_double _ _ _ 1.000488340259033 1.00048845952626) in H; [|lra..].
  apply (exp_double _ _ _ 1.000976918994274 1.000977157645229) in H; [|lra..].
  apply (exp_double _ _ _ 1.001954792359269 1.001955270127522) in H; [|lra..].
  apply (exp_double _ _ _ 1.003913405931705 1.003914363336316) in H; [|lra..].
  apply (exp_double _ _ _ 1.007842126609396 1.007844048912961) in H; [|lra..].
  apply (exp_double _ _ _ 1.015745752168549 1.015749626929271) in H; [|lra..].
  apply (exp_double _ _ _ 1.031739433048451 1.031747304606954) in H; [|lra..].
  apply (exp_double _ _ _ 1.064486257707139 1.064502500563715) in H; [|lra..].
  apply (exp_double _ _ _ 1.133130992847349 1.133165573706403) in H; [|lra..].
  apply (exp_double _ _ _ 1.283985846951218 1.284064217433362) in H; [|lra..].
  apply (exp_double _ _ _ 1.648619655171036 1.648820914492753) in H; [|lra..].
  apply (exp_double _ _ _ 2.717946767416265 2.718610408068719) in H; [|lra..].
  apply (exp_double _ _ _ 7.387234630508524 7.390842550859567) in H; [|lra..].
  apply (exp_double _ _ _ 54.571235486184409 54.624553611596352) in H; [|lra..].
  replace (2 * (2 * (2 * (2 * (2 * (2 * (2 * (2 * (2 * (2 * (2 * (2 * (2 *
           (2 * ((4 - 1 / 205000) / 16384)))))))))))))))
    with (4 - 1 / 205000) in H by lra.
  lra.
Qed.

(** The two branches of [signed]. *)
Lemma s_curve_price_buy (c : R) (q : Z) (adv k h : R) :
  (0 < q)%Z ->
  s_curve_price c q adv k h =
  round_ndigits
    (c * (1 + 0.002 *
            (1 / (1 + exp (- k * (IZR (Z.abs q) / (h * Rmax adv 1) - 1)))))) 4.
Proof.
  intros Hq. unfold s_curve_price.
  by destruct (Z.ltb_spec 0 q); [|lia].
Qed.

Lemma s_curve_price_sell (c : R) (q : Z) (adv k h : R) :
  (q <= 0)%Z ->
  s_curve_price c q adv k h =
  round_ndigits
    (c * (1 - 0.002 *
            (1 / (1 + exp (- k * (IZR (Z.abs q) / (h * Rmax adv 1) - 1)))))) 4.
Proof.
  intros Hq. unfold s_curve_price.
  destruct (Z.ltb_spec 0 q); [lia|]. f_equal. lra.
Qed.

Lemma Rmax_stub_adv : Rmax 82000000 1 = 82000000.
Proof. apply Rmax_left. lra. Qed.

Lemma round_ndigits_stub_close : round_ndigits 227.13 4 = 227.13.
Proof.
  replace 227.13 with (IZR 2271300 / 10000) by lra. apply round_ndigits_grid.
Qed.

(** A buy of 10 shares against the stub ADV: the exponent of the sigmoid is
    [4 - 1/205000]. *)
Lemma s_curve_price_buy_stub (c : R) :
  s_curve_price c 10 82000000 4 0.1 =
  round_ndigits (c * (1 + 0.002 * (1 / (1 + exp (4 - 1 / 205000))))) 4.
Proof.
  rewrite s_curve_price_buy by lia.
  rewrite Rmax_stub_adv. change (Z.abs 10) with 10%Z.
  match goal with |- context [exp ?t] =>
    replace t with (4 - 1 / 205000); [done|] end.
  replace (0.1 * 82000000) with 8200000 by lra. lra.
Qed.

(** The price of an empty order, whatever the ADV. *)
Lemma s_curve_price_zero (c adv : R) :
  s_curve_price c 0 adv 4 0.1
  = round_ndigits (c * (1 - 0.002 / (1 + exp 4))) 4.
Proof.
  rewrite s_curve_price_sell by lia. change (Z.abs 0) with 0%Z.
  rewrite Rdiv_0_l.
  match goal with |- context [exp ?t] => replace t with 4 by lra end.
  f_equal. lra.
Qed.

(** C2, as the code has it: an order of quantity 0 takes the sell branch at
    participation 0, so the price is the reference close discounted by
    [0.002 / (1 + e^4)] and then rounded to 4 decimals, whatever the ADV.
    For a non-negative close that is at most the rounded close, and for a
    close above 4.1 it is strictly below it. *)
Theorem s_curve_price_zero_order (prev_close adv : R) :
  s_curve_price prev_close 0 adv 4 0.1
  = round_ndigits (prev_close * (1 - 0.002 / (1 + exp 4))) 4
  /\ (0 <= prev_close ->
      s_curve_price prev_close 0 adv 4 0.1 <= round_ndigits prev_close 4)
  /\ (4.1 < prev_close ->
      s_curve_price prev_close 0 adv 4 0.1 < round_ndigits prev_close 4).
Proof.
  rewrite s_curve_price_zero.
  pose proof exp_4_le_81 as He. pose proof (exp_pos 4) as Hp.
  pose proof (sigmoid_between 0 81 (exp 4) ltac:(lra) ltac:(lra)) as [Hs _].
  pose proof (sigmoid_bounds 4) as [Hs0 _].
  split; [done|split]; intros Hc.
  - apply round_ndigits_mono. nra.
  - rewrite !round_ndigits_4.
    match goal with |- IZR (round_half_even ?y) / _ < IZR (round_half_even ?x) / _ =>
      pose proof (round_half_even_error y) as [_ Hy];
      pose proof (round_half_even_error x) as [Hx _];
      assert (y < x - 1) by nra end.
    lra.
Qed.

Lemma s_curve_price_zero_order_witness :
  s_curve_price 227.13 0 82000000 4 0.1
  = round_ndigits (227.13 * (1 - 0.002 / (1 + exp 4))) 4
  /\ s_curve_price 227.13 0 82000000 4 0.1 <= round_ndigits 227.13 4
  /\ s_curve_price 227.13 0 82000000 4 0.1 < round_ndigits 227.13 4.
Proof.
  destruct (s_curve_price_zero_order 227.13 82000000) as (H1 & H2 & H3).
  split; [exact H1|split; [apply H2; lra|apply H3; lra]].
Defined.

(** C2 fails at the stub bar of AAPL: the price of an empty order is below
    the reference close 227.13, which is its own rounding. *)
Lemma s_curve_price_zero_order_not_close :
  s_curve_price 227.13 0 82000000 4 0.1 <> round_ndigits 227.13 4.
Proof.
  rewrite round_ndigits_stub_close, s_curve_price_zero.
  pose proof exp_4_le_81 as He. pose proof (exp_pos 4) as Hp.
  pose proof (sigmoid_between 0 81 (exp 4) ltac:(lra) ltac:(lra)) as [Hs _].
  match goal with |- round_ndigits ?y 4 <> _ =>
    pose proof (round_ndigits_error y) as [_ Hr] end.
  lra.
Qed.

(** The exponential of 4, by twenty squarings of the bounds of
    [exp (4 / 2^20)]. *)
Lemma exp_4_window : 54.597 <= exp 4 <= 54.599.
Proof.
  pose proof (exp_small_bounds (4 / 1048576)) as H.
  assert (1.000003814697265625 <= exp (4 / 1048576)
          <= 1.000003814711817596) as H0 by lra.
  clear H. rename H0 into H.
  apply (exp_double _ _ _ 1.000007629409083165 1.000007629438187219) in H; [|lra..].
  apply (exp_double _ _ _ 1.000015258876374212 1.000015258934582766) in H; [|lra..].
  apply (exp_double _ _ _ 1.000030517985581732 1.000030518102000617) in H; [|lra..].
  apply (exp_double _ _ _ 1.000061036902510907 1.000061037135355784) in H; [|lra..].
  apply (exp_double _ _ _ 1.000122077530525282 1.000122077996243461) in H; [|lra..].
  apply (exp_double _ _ _ 1.000244169963974023 1.000244170895524089) in H; [|lra..].
  apply (exp_double _ _ _ 1.000488399546919353 1.0004884014104744) in H; [|lra..].
  apply (exp_double _ _ _ 1.000977037627956137 1.000977041356886554) in H; [|lra..].
  apply (exp_double _ _ _ 1.001955029858438716 1.001955037323586175) in H; [|lra..].
  apply (exp_double _ _ _ 1.003913881858624818 1.003913896818108965) in H; [|lra..].
  apply (exp_double _ _ _ 1.007843082188452908 1.007843112224520734) in H; [|lra..].
  apply (exp_double _ _ _ 1.015747678315120643 1.015747738858407895) in H; [|lra..].
  apply (exp_double _ _ _ 1.031743346002557806 1.0317434689959684) in H; [|lra..].
  apply (exp_double _ _ _ 1.064494332020553714 1.064494585815834808) in H; [|lra..].
  apply (exp_double _ _ _ 1.133148182903884848 1.133148723231225697) in H; [|lra..].
  apply (exp_double _ _ _ 1.284024804418376069 1.284026028960556936) in H; [|lra..].
  apply (exp_double _ _ _ 1.648719698361648916 1.648722843048217) in H; [|lra..].
  apply (exp_double _ _ _ 2.718276643765726587 2.718287013188995588) in H; [|lra..].
  apply (exp_double _ _ _ 7.389027912042262842 7.389084286071950674) in H; [|lra..].
  apply (exp_double _ _ _ 54.597733484939642382 54.598566586675428986) in H; [|lra..].
  replace (2 * (2 * (2 * (2 * (2 * (2 * (2 * (2 * (2 * (2 * (2 * (2 * (2 * (2 * (2 * (2 * (2 * (2 * (2 * (2 * (4 / 1048576)))))))))))))))))))))
    with 4 in H by lra.
  lra.
Qed.

(** The impact of an order is at least the impact at participation 0. *)
Lemma impact_at_least (order_qty : Z) (adv : R) :
  1 / (1 + exp 4)
  <= 1 / (1 + exp (- (4) * (IZR (Z.abs order_qty) / (0.1 * Rmax adv 1) - 1))).
Proof.
  assert (0 <= IZR (Z.abs order_qty) / (0.1 * Rmax adv 1)) as Hx.
  { assert (1 <= Rmax adv 1) by apply Rmax_r.
    assert (0 <= IZR (Z.abs order_qty)) by (apply IZR_le; lia).
    apply Rmult_le_pos; [done|]. left. apply Rinv_0_lt_compat. lra. }
  set (x := IZR (Z.abs order_qty) / (0.1 * Rmax adv 1)) in *.
  pose proof (exp_pos (- (4) * (x - 1))) as Hp.
  assert (exp (- (4) * (x - 1)) <= exp 4) as He.
  { destruct (Rle_lt_or_eq_dec (- (4) * (x - 1)) 4 ltac:(lra)) as [Hlt|Heq].
    - left. by apply exp_increasing.
    - rewrite Heq. lra. }
  unfold Rdiv. rewrite !Rmult_1_l. apply Rinv_le_contravar; lra.
Qed.

(** A sell of 10 shares against the stub ADV. *)
Lemma s_curve_price_sell_stub (c : R) :
  s_curve_price c (-10) 82000000 4 0.1 =
  round_ndigits (c * (1 - 0.002 * (1 / (1 + exp (4 - 1 / 205000))))) 4.
Proof.
  rewrite s_curve_price_sell by lia.
  rewrite Rmax_stub_adv. change (Z.abs (-10)) with 10%Z.
  match goal with |- context [exp ?t] =>
    replace t with (4 - 1 / 205000); [done|] end.
  replace (0.1 * 82000000) with 8200000 by lra. lra.
Qed.

(** C3, as the code has it: for every ADV and every reference close that is
    at least 1.39, or that is non-negative and already a multiple of 0.0001,
    a buy is priced at or above the reference close and a sell at or below
    it.  From 1.39 on the impact, at least [0.002 / (1 + e^4)] of the close,
    exceeds the half unit of the fourth decimal that rounding can take
    back. *)
Theorem s_curve_price_sign_monotone (prev_close : R) (order_qty : Z)
    (adv : R) :
  1.39 <= prev_close
  \/ (0 <= prev_close /\ round_ndigits prev_close 4 = prev_close) ->
  ((0 < order_qty)%Z ->
   prev_close <= s_curve_price prev_close order_qty adv 4 0.1) /\
  ((order_qty < 0)%Z ->
   s_curve_price prev_close order_qty adv 4 0.1 <= prev_close).
Proof.
  intros [Hc|[Hc Hgrid]].
  - pose proof exp_4_window as [_ He]. pose proof (exp_pos 4) as Hp.
    pose proof (sigmoid_between 0 54.599 (exp 4) ltac:(lra) ltac:(lra))
      as [Hs _].
    pose proof (impact_at_least order_qty adv) as Hi.
    split; intros Hq;
      [rewrite s_curve_price_buy by done|rewrite s_curve_price_sell by lia];
      match goal with |- context [round_ndigits ?y 4] =>
        pose proof (round_ndigits_error y) as [Hr1 Hr2] end;
      nra.
  - split; intros Hq.
    + rewrite s_curve_price_buy by done.
      match goal with |- context [1 / (1 + exp ?t)] =>
        pose proof (sigmoid_bounds t) as [Hi _] end.
      rewrite <- Hgrid at 1. apply round_ndigits_mono. nra.
    + rewrite s_curve_price_sell by lia.
      match goal with |- context [1 / (1 + exp ?t)] =>
        pose proof (sigmoid_bounds t) as [Hi _] end.
      rewrite <- Hgrid at 2. apply round_ndigits_mono. nra.
Qed.

Lemma s_curve_price_sign_monotone_witness :
  227.13456 <= s_curve_price 227.13456 10 82000000 4 0.1
  /\ s_curve_price 227.13456 (-10) 82000000 4 0.1 <= 227.13456
  /\ 0.5 <= s_curve_price 0.5 10 82000000 4 0.1
  /\ s_curve_price 0.5 (-10) 82000000 4 0.1 <= 0.5.
Proof.
  assert (round_ndigits 0.5 4 = 0.5) as Hgrid.
  { replace 0.5 with (IZR 5000 / 10000) by lra. apply round_ndigits_grid. }
  split; [|split; [|split]].
  - destruct (s_curve_price_sign_monotone 227.13456 10 82000000) as [H _];
      [left; lra|]. apply H. lia.
  - destruct (s_curve_price_sign_monotone 227.13456 (-10) 82000000) as [_ H];
      [left; lra|]. apply H. lia.
  - destruct (s_curve_price_sign_monotone 0.5 10 82000000) as [H _];
      [right; split; [lra|exact Hgrid]|]. apply H. lia.
  - destruct (s_curve_price_sign_monotone 0.5 (-10) 82000000) as [_ H];
      [right; split; [lra|exact Hgrid]|]. apply H. lia.
Defined.

(** C3 fails outside those conditions: a buy against a negative reference
    close is priced below it; a buy against a positive close finer than the
    fourth decimal is rounded down below it, also just under 1.39; and a
    sell against such a close is rounded up above it. *)
Lemma s_curve_price_sign_not_monotone :
  ~ ((0 < 10)%Z -> -100 <= s_curve_price (-100) 10 82000000 4 0.1) /\
  ~ ((0 < 10)%Z -> 0.00004 <= s_curve_price 0.00004 10 82000000 4 0.1) /\
  ~ ((0 < 10)%Z -> 1.3800001 <= s_curve_price 1.3800001 10 82000000 4 0.1) /\
  ~ ((-10 < 0)%Z ->
     s_curve_price 1.3799999 (-10) 82000000 4 0.1 <= 1.3799999).
Proof.
  pose proof exp_buy_window as He.
  pose proof (sigmoid_between 54.57 54.63 _ ltac:(lra) He) as [Hs1 Hs2].
  split; [|split; [|split]]; intros H; specialize (H ltac:(lia)).
  - rewrite s_curve_price_buy_stub in H.
    match type of H with _ <= round_ndigits ?y 4 =>
      pose proof (round_ndigits_error y) as [_ Hr] end.
    lra.
  - rewrite s_curve_price_buy_stub, round_ndigits_4 in H.
    match type of H with context [round_half_even ?y] =>
      assert (round_half_even y = 0%Z) as Hz
        by (apply round_half_even_unique; lra) end.
    rewrite Hz in H. lra.
  - rewrite s_curve_price_buy_stub, round_ndigits_4 in H.
    match type of H with context [round_half_even ?y] =>
      assert (round_half_even y = 13800%Z) as Hz
        by (apply round_half_even_unique; lra) end.
    rewrite Hz in H. lra.
  - rewrite s_curve_price_sell_stub, round_ndigits_4 in H.
    match type of H with context [round_half_even ?y] =>
      assert (round_half_even y = 13800%Z) as Hz
        by (apply round_half_even_unique; lra) end.
    rewrite Hz in H. lra.
Qed.

(** C4, as the code has it: the buy of 10 shares at the stub bar of AAPL is
    priced at 227.1382, strictly above the reference close 227.13 and below
    227.13 + 0.02286. *)
Theorem s_curve_price_stub_example :
  s_curve_price 227.13 10 82000000 4 0.1 = 227.1382 /\
  227.13 < s_curve_price 227.13 10 82000000 4 0.1 < 227.13 + 0.02286.
Proof.
  assert (s_curve_price 227.13 10 82000000 4 0.1 = 227.1382) as ->; [|lra].
  rewrite s_curve_price_buy_stub, round_ndigits_4.
  pose proof exp_buy_window as He.
  pose proof (sigmoid_between 54.57 54.63 _ ltac:(lra) He) as [Hs1 Hs2].
  match goal with |- context [round_half_even ?y] =>
    assert (round_half_even y = 2271382%Z) as ->
      by (apply round_half_even_unique; lra) end.
  lra.
Qed.

(** C4 fails as stated: the price is not inside (227.13 - 0.02286, 227.13). *)
Lemma s_curve_price_stub_example_not_below :
  ~ (227.13 - 0.02286 < s_curve_price 227.13 10 82000000 4 0.1 < 227.13).
Proof.
  rewrite s_curve_price_buy_stub.
  pose proof exp_buy_window as He.
  pose proof (sigmoid_between 54.57 54.63 _ ltac:(lra) He) as [Hs1 Hs2].
  match goal with |- context [round_ndigits ?y 4] =>
    pose proof (round_ndigits_error y) as [Hr _] end.
  lra.
Qed.

End PricingFacts.

(** ** The sentiment tilt *)

Section TiltFacts.
Import main judge_client.

Lemma find_aapl_none (senti : list SentimentRecord.t) :
  Forall not_aapl senti ->
  List.find (fun s => bool_decide (SentimentRecord.ticker s = "AAPL")) senti
  = None.
Proof.
  induction 1 as [|s l Hs _ IH]; [done|]. simpl.
  by rewrite bool_decide_eq_false_2.
Qed.

Lemma find_aapl_first (pre post : list SentimentRecord.t)
    (s : SentimentRecord.t) :
  Forall not_aapl pre -> SentimentRecord.ticker s = "AAPL" ->
  List.find (fun s => bool_decide (SentimentRecord.ticker s = "AAPL"))
            (pre ++ s :: post) = Some s.
Proof.
  intros Hpre Hs. induction Hpre as [|r l Hr _ IH]; simpl.
  - by rewrite bool_decide_eq_true_2.
  - by rewrite bool_decide_eq_false_2.
Qed.

(** C6, as the code has it: the tilt is [(score - 0.5) * 2] of the first
    record of the tracked ticker and 0 without one; it lies in [-1, 1] when
    the scores lie in [0, 1] (the code does not clamp it). *)
Theorem sentiment_tilt_spec (senti : list SentimentRecord.t) :
  (forall pre s post,
     senti = pre ++ s :: post -> Forall not_aapl pre ->
     SentimentRecord.ticker s = "AAPL" ->
     sentiment_tilt senti = (SentimentRecord.score s - 0.5) * 2) /\
  (Forall not_aapl senti -> sentiment_tilt senti = 0) /\
  ((forall s, s ∈ senti -> 0 <= SentimentRecord.score s <= 1) ->
   -1 <= sentiment_tilt senti <= 1).
Proof.
  unfold sentiment_tilt. split; [|split].
  - intros pre s post -> Hpre Hs. by rewrite find_aapl_first.
  - intros Hall. by rewrite find_aapl_none.
  - intros Hscore.
    destruct (List.find _ senti) as [s|] eqn:Hfind; [|lra].
    apply find_some in Hfind as [Hin _].
    apply list_elem_of_In, Hscore in Hin. lra.
Qed.

Lemma sentiment_tilt_spec_witness :
  sentiment_tilt (STUB_SENTIMENT initial_fixtures) = (0.78 - 0.5) * 2 /\
  sentiment_tilt [SentimentRecord.mk "2025-08-25" "TSLA" "neg" 0.66 None] = 0 /\
  -1 <= sentiment_tilt (STUB_SENTIMENT initial_fixtures) <= 1.
Proof.
  split; [|split].
  - apply (proj1 (sentiment_tilt_spec (STUB_SENTIMENT initial_fixtures))
             [] _ _ eq_refl); [constructor|reflexivity].
  - apply (proj1 (proj2 (sentiment_tilt_spec _))).
    repeat constructor. unfold not_aapl. simpl. discriminate.
  - apply (proj2 (proj2 (sentiment_tilt_spec _))).
    intros s Hs. simpl in Hs.
    repeat (apply elem_of_cons in Hs as [->|Hs]; [simpl; lra|]).
    by apply elem_of_nil in Hs.
Defined.

(** C6 fails as stated: a record with score 2, which ingestion accepts,
    gives the tilt 3. *)
Lemma sentiment_tilt_out_of_range :
  ~ (-1 <= sentiment_tilt [SentimentRecord.mk "2025-08-25" "AAPL" "pos" 2 None]
     <= 1).
Proof.
  unfold sentiment_tilt. simpl. lra.
Qed.

End TiltFacts.

(** ** The stores *)

Section StoreFacts.
Import main judge_client.
Variable float_of_string : string -> option R.

Local Abbreviation rebalance := (main.rebalance float_of_string).
Local Abbreviation ingest_upload := (main.ingest_upload float_of_string).
Local Abbreviation handle := (main.handle float_of_string).
Local Abbreviation run := (main.run float_of_string).

Lemma ingest_upload_frame clk file asOf sourceId key σ :
  let σ' := (ingest_upload clk file asOf sourceId key σ).2 in
  REBALANCE_RESULTS σ' = REBALANCE_RESULTS σ /\
  ACKED_REQUESTS σ' = ACKED_REQUESTS σ.
Proof.
  unfold main.ingest_upload.
  destruct (INGESTED_CHECKSUMS σ !! _); [done|].
  destruct (ZipFile file) as [zf|]; [|done].
  destruct (negb _); [done|].
  by destruct (and_then _ _ _) as [[]].
Qed.

Lemma rebalance_frame env net clk req key σ :
  let σ' := (rebalance env net clk req key σ).2 in
  fixtures σ' = fixtures σ /\
  INGESTED_CHECKSUMS σ' = INGESTED_CHECKSUMS σ /\
  ACKED_REQUESTS σ' = ACKED_REQUESTS σ.
Proof.
  unfold main.rebalance.
  destruct (if truthy key then _ else _); [done|].
  destruct (rebalance_compute _ _ _ _ _ _); [|done..].
  destruct key as [k|]; [|done]. by destruct (truthy (Some k)).
Qed.

(** Only [/ack] writes the acknowledgement store. *)
Lemma handle_acked σ r :
  ACKED_REQUESTS (handle σ r) =
  match r with
  | Ack resp => <[requestId resp := true]> (ACKED_REQUESTS σ)
  | _ => ACKED_REQUESTS σ
  end.
Proof.
  destruct r; simpl; [apply ingest_upload_frame|apply rebalance_frame|done].
Qed.

Lemma run_acked history σ id :
  ACKED_REQUESTS (run σ history) !! id =
  if acked_in id history then Some true else ACKED_REQUESTS σ !! id.
Proof.
  unfold main.run. revert σ.
  induction history as [|r history IH]; intros σ; simpl; [done|].
  rewrite IH, handle_acked. destruct r as [| |resp]; simpl; try done.
  destruct (acked_in id history); [by rewrite orb_true_r|].
  rewrite orb_false_r. case_bool_decide as Hid.
  - subst id. by rewrite lookup_insert_eq.
  - by rewrite lookup_insert_ne.
Qed.

(** C7: starting from the fresh process, the acknowledgement of a request
    identifier reports a duplicate exactly when that identifier has been
    acknowledged before - false on the first acknowledgement, true on every
    later one - whatever else the server has handled and whether or not any
    rebalance ever produced the identifier. *)
Theorem ack_duplicate_detection (history : list request)
    (resp : RebalanceResponse) :
  duplicate (ack resp (run initial_state history)).1
  = acked_in (requestId resp) history.
Proof.
  unfold ack. simpl. rewrite run_acked.
  by destruct (acked_in _ _).
Qed.

(** An empty header value counts as no key: it is never stored. *)
Lemma handle_results_no_empty σ r :
  REBALANCE_RESULTS σ !! "" = None ->
  REBALANCE_RESULTS (handle σ r) !! "" = None.
Proof.
  intros Hinv. destruct r as [clk file asOf sourceId key|env net clk req key|resp];
    simpl; [by rewrite (proj1 (ingest_upload_frame _ _ _ _ _ _))| |done].
  unfold main.rebalance.
  destruct (if truthy key then _ else _); [done|].
  destruct (rebalance_compute _ _ _ _ _ _); [|done..].
  destruct key as [k|]; [|done]. simpl.
  case_bool_decide as Hk; simpl; [by subst k|].
  by rewrite lookup_insert_ne.
Qed.

Lemma run_results_no_empty history σ :
  REBALANCE_RESULTS σ !! "" = None ->
  REBALANCE_RESULTS (run σ history) !! "" = None.
Proof.
  unfold main.run. revert σ.
  induction history as [|r history IH]; intros σ Hinv; simpl; [done|].
  by apply IH, handle_results_no_empty.
Qed.

(** No handler overwrites or removes a stored result. *)
Lemma handle_results_stable σ r k stored :
  REBALANCE_RESULTS σ !! k = Some stored ->
  REBALANCE_RESULTS (handle σ r) !! k = Some stored.
Proof.
  intros Hk. destruct r as [clk file asOf sourceId key|env net clk req key|resp];
    simpl; [by rewrite (proj1 (ingest_upload_frame _ _ _ _ _ _))| |done].
  unfold main.rebalance.
  destruct (truthy key) eqn:Htruthy; simpl.
  - destruct key as [k'|]; [simpl|done].
    destruct (REBALANCE_RESULTS σ !! k') eqn:Hk'; [done|].
    destruct (rebalance_compute _ _ _ _ _ _); [|done..].
    simpl. rewrite lookup_insert_ne; [done|]. intros ->. congruence.
  - destruct (rebalance_compute _ _ _ _ _ _); [|done..].
    by destruct key.
Qed.

Lemma run_results_stable history σ k stored :
  REBALANCE_RESULTS σ !! k = Some stored ->
  REBALANCE_RESULTS (run σ history) !! k = Some stored.
Proof.
  unfold main.run. revert σ.
  induction history as [|r history IH]; intros σ Hk; simpl; [done|].
  by apply IH, handle_results_stable.
Qed.

(** A hit on a non-empty key returns the stored result and leaves the state
    as it is, whatever the request, the environment and the clock. *)
Lemma rebalance_hit env net clk req k stored σ :
  k <> "" -> REBALANCE_RESULTS σ !! k = Some stored ->
  rebalance env net clk req (Some k) σ = (Ok stored, σ).
Proof.
  intros Hne Hk. unfold main.rebalance. simpl.
  rewrite bool_decide_eq_false_2 by done. simpl. by rewrite Hk.
Qed.

(** A computed result is stored under a non-empty key. *)
Lemma rebalance_stores env net clk req k resp σ σ1 :
  k <> "" -> rebalance env net clk req (Some k) σ = (Ok resp, σ1) ->
  REBALANCE_RESULTS σ1 !! k = Some resp.
Proof.
  intros Hne. unfold main.rebalance. simpl.
  rewrite bool_decide_eq_false_2 by done. simpl.
  destruct (REBALANCE_RESULTS σ !! k) eqn:Hk.
  - intros [= <- <-]. done.
  - destruct (rebalance_compute _ _ _ _ _ _); intros [= <- <-].
    simpl. by rewrite lookup_insert_eq.
Qed.

(** C1: once a key is present in the result store of the running server,
    every later rebalance request with that key - after any further
    requests, ingestions that replace the fixtures included - returns the
    stored result and changes nothing; the request body, the environment,
    the data service and the clock are not consulted. *)
Theorem rebalance_idempotent (history later : list request) (key : string)
    (stored : RebalanceResponse) (env : Environ) (net : RemoteService)
    (clk : Clock) (req : RebalanceRequest) :
  REBALANCE_RESULTS (run initial_state history) !! key = Some stored ->
  rebalance env net clk req (Some key) (run (run initial_state history) later)
  = (Ok stored, run (run initial_state history) later).
Proof.
  intros Hk. apply rebalance_hit.
  - intros ->. by rewrite run_results_no_empty in Hk.
  - by apply run_results_stable.
Qed.

(** The same request twice with the same non-empty key: when the first call
    returns a result, the second returns it again, whatever was handled in
    between. *)
Lemma rebalance_twice env net clk req k resp σ σ1 later env' net' clk' :
  k <> "" -> rebalance env net clk req (Some k) σ = (Ok resp, σ1) ->
  rebalance env' net' clk' req (Some k) (run σ1 later)
  = (Ok resp, run σ1 later).
Proof.
  intros Hne Hfirst. apply rebalance_hit; [done|].
  by eapply run_results_stable, rebalance_stores.
Qed.

End StoreFacts.

(** ** The rebalance computation *)

Section RebalanceFacts.
Import main judge_client.
Variable float_of_string : string -> option R.

Local Abbreviation rebalance := (main.rebalance float_of_string).
Local Abbreviation rebalance_compute := (main.rebalance_compute float_of_string).
Local Abbreviation from_env := (judge_client.from_env float_of_string).

(** The order loop prices the bucket once and reuses that price. *)
Lemma order_loop_from clk pb q bucket accounts (m : gmap string R) os :
  let price := s_curve_price (PriceBar.close pb) q
                 (adv_or_default (PriceBar.adv pb)) 4 0.1 in
  m !! ("AAPL@" +:+ bucket) = None \/ m !! ("AAPL@" +:+ bucket) = Some price ->
  (foldl (order_step clk pb q bucket) (m, os) accounts).2
  = os ++ imap (fun i acc => mkOrder acc "AAPL" "BUY" q price
                               (now_iso clk (length os + i))) accounts.
Proof.
  intros price. revert m os.
  induction accounts as [|acc accounts IH]; intros m os Hm.
  - simpl. by rewrite app_nil_r.
  - rewrite imap_cons. cbn [foldl].
    assert (exists m',
      order_step clk pb q bucket (m, os) acc
      = (m', os ++ [mkOrder acc "AAPL" "BUY" q price (now_iso clk (length os))])
      /\ m' !! ("AAPL@" +:+ bucket) = Some price) as (m' & -> & Hm').
    { unfold order_step. destruct Hm as [Hm|Hm]; rewrite Hm.
      - eexists. split; [|apply lookup_insert_eq].
        by rewrite lookup_total_insert_eq.
      - eexists. split; [|done].
        by rewrite (lookup_total_correct _ _ _ Hm). }
    rewrite IH by auto. rewrite <- app_assoc. simpl.
    rewrite Nat.add_0_r. do 2 f_equal.
    apply imap_ext. intros i x _. simpl.
    rewrite length_app. simpl. do 2 f_equal. lia.
Qed.

Lemma order_loop clk pb q bucket accounts :
  (foldl (order_step clk pb q bucket) (∅, []) accounts).2
  = batch clk q (s_curve_price (PriceBar.close pb) q
                   (adv_or_default (PriceBar.adv pb)) 4 0.1) accounts.
Proof. rewrite order_loop_from by (left; apply lookup_empty). done. Qed.

(** The result of a computation whose four queries succeed. *)
Lemma rebalance_compute_ok env net clk req fx judge accounts pb senti :
  from_env env = Ok judge ->
  resolve_accounts judge net fx req = Ok accounts ->
  resolve_price judge net fx req = Ok (Some pb) ->
  get_sentiment judge net fx None None (Some ["AAPL"]) = Ok senti ->
  rebalance_compute env net clk req fx
  = Ok (mkResponse ("rb-" +:+ pretty (timestamp clk))
          (batch clk (qty_common req senti)
             (s_curve_price (PriceBar.close pb) (qty_common req senti)
                (adv_or_default (PriceBar.adv pb)) 4 0.1)
             accounts)).
Proof.
  intros Hj Ha Hp Hs. unfold main.rebalance_compute.
  rewrite Hj. simpl. rewrite Ha. simpl. rewrite Hp. simpl. rewrite Hs. simpl.
  by rewrite order_loop.
Qed.

(** Without a usable price the computation ends with the 503 error. *)
Lemma rebalance_compute_no_price env net clk req fx judge accounts :
  from_env env = Ok judge ->
  resolve_accounts judge net fx req = Ok accounts ->
  resolve_price judge net fx req = Ok None ->
  rebalance_compute env net clk req fx
  = HTTPException 503
      ("No price found for AAPL (asOf=" +:+ asOf req +:+
       "). Upload prices via /ingest/upload or configure Robo Judge.").
Proof.
  intros Hj Ha Hp. unfold main.rebalance_compute.
  rewrite Hj. simpl. rewrite Ha. simpl. by rewrite Hp.
Qed.

(** A request that does not hit the store is computed. *)
Lemma rebalance_miss env net clk req key σ :
  (forall k, key = Some k -> REBALANCE_RESULTS σ !! k = None) ->
  (rebalance env net clk req key σ).1 = rebalance_compute env net clk req (fixtures σ)
  /\ (forall c d, rebalance_compute env net clk req (fixtures σ) = HTTPException c d ->
      (rebalance env net clk req key σ).2 = σ)
  /\ (forall e, rebalance_compute env net clk req (fixtures σ) = Raised e ->
      (rebalance env net clk req key σ).2 = σ).
Proof.
  intros Hmiss. unfold main.rebalance.
  assert ((if truthy key
           then key ≫= (fun k => REBALANCE_RESULTS σ !! k) else None) = None)
    as ->.
  { destruct (truthy key); [|done]. destruct key as [k|]; [|done].
    simpl. by apply Hmiss. }
  destruct (main.rebalance_compute _ _ _ _ _ _); simpl; split; try done;
    split; intros; discriminate.
Qed.

(** In stub mode the query without filter returns the whole price list. *)
Lemma get_prices_stub_all judge net fx :
  use_stub judge = true ->
  get_prices judge net fx None None = Ok (STUB_PRICES fx).
Proof.
  intros Hs. unfold get_prices. rewrite Hs. simpl. f_equal.
  induction (STUB_PRICES fx) as [|p l IH]; simpl; by f_equal.
Qed.

Lemma find_price_none prices date :
  Forall other_ticker prices -> find_price prices "AAPL" date = None.
Proof.
  induction 1 as [|p l Hp _ IH]; [done|]. unfold find_price in *. simpl.
  by rewrite bool_decide_eq_false_2.
Qed.

Lemma find_price_first pre pb post :
  Forall other_ticker pre -> PriceBar.ticker pb = "AAPL" ->
  find_price (pre ++ pb :: post) "AAPL" None = Some pb.
Proof.
  intros Hpre Hpb. unfold find_price.
  induction Hpre as [|p l Hp _ IH]; simpl.
  - by rewrite bool_decide_eq_true_2.
  - by rewrite bool_decide_eq_false_2.
Qed.

(** C5: a request that misses the result store and whose accounts are
    resolved; the price query for the as-of date holds no bar of the tracked
    ticker.  Then the unfiltered price set is fetched: without a bar of the
    ticker there either, the handler ends with the 503 error that names AAPL
    and the as-of date, and the state is unchanged; otherwise the orders are
    priced from the first bar of the ticker in the unfiltered set, whatever
    its date. *)
Theorem rebalance_price_fallback env net clk req key σ judge accounts
    prices_asof prices_any :
  (forall k, key = Some k -> REBALANCE_RESULTS σ !! k = None) ->
  from_env env = Ok judge ->
  resolve_accounts judge net (fixtures σ) req = Ok accounts ->
  get_prices judge net (fixtures σ) (Some (asOf req)) None = Ok prices_asof ->
  Forall other_ticker prices_asof ->
  get_prices judge net (fixtures σ) None None = Ok prices_any ->
  (Forall other_ticker prices_any ->
   rebalance env net clk req key σ
   = (HTTPException 503
        ("No price found for AAPL (asOf=" +:+ asOf req +:+
         "). Upload prices via /ingest/upload or configure Robo Judge."), σ))
  /\
  (forall pre pb post senti,
     prices_any = pre ++ pb :: post ->
     Forall other_ticker pre -> PriceBar.ticker pb = "AAPL" ->
     get_sentiment judge net (fixtures σ) None None (Some ["AAPL"]) = Ok senti ->
     (rebalance env net clk req key σ).1
     = Ok (mkResponse ("rb-" +:+ pretty (timestamp clk))
             (batch clk (qty_common req senti)
                (s_curve_price (PriceBar.close pb) (qty_common req senti)
                   (adv_or_default (PriceBar.adv pb)) 4 0.1)
                accounts))).
Proof.
  intros Hmiss Hj Ha Hasof Hnone Hany.
  destruct (rebalance_miss env net clk req key σ Hmiss) as (Hres & Hhttp & _).
  split.
  - intros Hall.
    assert (resolve_price judge net (fixtures σ) req = Ok None) as Hp.
    { unfold resolve_price. rewrite Hasof. simpl.
      rewrite find_price_none by done. rewrite Hany. simpl.
      by rewrite find_price_none. }
    pose proof (rebalance_compute_no_price env net clk req _ _ _ Hj Ha Hp) as Hc.
    apply injective_projections; [by rewrite Hres|by eapply Hhttp].
  - intros pre pb post senti -> Hpre Hpb Hs.
    assert (resolve_price judge net (fixtures σ) req = Ok (Some pb)) as Hp.
    { unfold resolve_price. rewrite Hasof. simpl.
      rewrite find_price_none by done. rewrite Hany. simpl.
      by rewrite find_price_first. }
    rewrite Hres. by eapply rebalance_compute_ok.
Qed.

(** C10: in a rebalance that reaches order construction with a bar whose
    ADV is absent or 0, every order is priced with the ADV 1,000,000. *)
Theorem rebalance_default_adv env net clk req key σ judge accounts pb senti :
  (forall k, key = Some k -> REBALANCE_RESULTS σ !! k = None) ->
  from_env env = Ok judge ->
  resolve_accounts judge net (fixtures σ) req = Ok accounts ->
  resolve_price judge net (fixtures σ) req = Ok (Some pb) ->
  get_sentiment judge net (fixtures σ) None None (Some ["AAPL"]) = Ok senti ->
  PriceBar.adv pb = None \/ PriceBar.adv pb = Some 0 ->
  (rebalance env net clk req key σ).1
  = Ok (mkResponse ("rb-" +:+ pretty (timestamp clk))
          (batch clk (qty_common req senti)
             (s_curve_price (PriceBar.close pb) (qty_common req senti)
                1000000 4 0.1)
             accounts)).
Proof.
  intros Hmiss Hj Ha Hp Hs Hadv.
  destruct (rebalance_miss env net clk req key σ Hmiss) as (-> & _).
  erewrite rebalance_compute_ok by done.
  assert (adv_or_default (PriceBar.adv pb) = 1000000) as ->; [|done].
  destruct Hadv as [->| ->]; [done|]. simpl.
  destruct (Req_dec_T 0 0); [done|lra].
Qed.

(** With or without an ADV of its own, a bar with a non-zero ADV is priced
    with that ADV. *)
Lemma adv_or_default_own (a : R) : a <> 0 -> adv_or_default (Some a) = a.
Proof. intros Ha. simpl. by destruct (Req_dec_T a 0). Qed.

(** An empty account list is handled as an absent one. *)
Lemma resolve_accounts_empty_as_absent judge net fx asOf f1 f2 f3 w v :
  resolve_accounts judge net fx (mkRequest asOf (mkFilter (Some []) f1 f2 f3) w v)
  = resolve_accounts judge net fx (mkRequest asOf (mkFilter None f1 f2 f3) w v).
Proof. done. Qed.

(** In stub mode [list_clients()] evaluates [int(None)]. *)
Lemma list_clients_stub_raises judge net fx limit :
  use_stub judge = true ->
  list_clients judge net fx limit None = Raised "TypeError".
Proof. intros Hs. unfold list_clients. by rewrite Hs. Qed.

(** So in stub mode every request without an account list that misses the
    result store ends with that exception, in any state. *)
Lemma rebalance_no_accounts_stub_raises env net clk req key σ judge :
  (forall k, key = Some k -> REBALANCE_RESULTS σ !! k = None) ->
  from_env env = Ok judge -> use_stub judge = true ->
  nonempty (accountIds (filters req)) = None ->
  rebalance env net clk req key σ = (Raised "TypeError", σ).
Proof.
  intros Hmiss Hj Hs Hn.
  destruct (rebalance_miss env net clk req key σ Hmiss) as (Hres & _ & Hraise).
  assert (rebalance_compute env net clk req (fixtures σ) = Raised "TypeError")
    as Hc.
  { unfold main.rebalance_compute, resolve_accounts.
    rewrite Hj. simpl. rewrite Hn.
    by rewrite list_clients_stub_raises. }
  apply injective_projections; [by rewrite Hres|by eapply Hraise].
Qed.

(** In remote mode the accounts of a request without account list are the
    clients of the first page of the data service. *)
Lemma resolve_accounts_remote judge net fx req items next :
  use_stub judge = false ->
  nonempty (accountIds (filters req)) = None ->
  judge_clients net 100 None = Ok (items, next) ->
  resolve_accounts judge net fx req = Ok (Client.clientId <$> items).
Proof.
  intros Hs Hn Hr. unfold resolve_accounts, list_clients.
  by rewrite Hn, Hs, Hr.
Qed.

(** C9 at the fresh stub: a request with an empty account list does not get
    an order per known client; [list_clients()] raises and the handler ends
    with that exception. *)
Theorem rebalance_empty_filter_stub_raises net clk :
  rebalance stub_env net clk
    (mkRequest "2025-08-25" (mkFilter (Some []) 0.02 0.10 0.25) 0.20 None)
    None initial_state
  = (Raised "TypeError", initial_state).
Proof. reflexivity. Qed.

End RebalanceFacts.

(** ** Ingestion *)

Section IngestFacts.
Import main judge_client.
Variable float_of_string : string -> option R.

Local Abbreviation ingest_upload := (main.ingest_upload float_of_string).

(** The guard of line 79 accepts exactly the archives that hold the four
    fixed members and one of the two price members. *)
Lemma required_any_spec (names : gset string) :
  existsb (fun req => bool_decide (req ⊆ names)) required_any = true <->
  {["clients.csv"; "holdings.csv"; "index.csv"; "sentiment.jsonl"]} ⊆ names
  /\ ("prices.csv" ∈ names \/ "prices.parquet" ∈ names).
Proof.
  unfold required_any. simpl. rewrite orb_false_r, orb_true_iff.
  rewrite !bool_decide_eq_true. set_unfold.
  split.
  - intros [H|H]; (split; [intros x Hx; apply H; tauto|]);
      [left|right]; apply H; tauto.
  - intros [H [Hp|Hp]]; [left|right]; intros x Hx;
      (destruct Hx as [Hx| ->]; [|apply H; tauto]);
      (destruct Hx as [Hx| ->]; [|done]); apply H; tauto.
Qed.

(** C8: an archive without the required members, uploaded under a key that
    is not in the registry, is refused with status 400 and the whole state -
    the five fixture lists and the three stores - is left as it was. *)
Theorem ingest_rejects_incomplete_archive clk file asOf sourceId key σ zf :
  ZipFile file = Some zf ->
  INGESTED_CHECKSUMS σ !! ingest_key file key = None ->
  ~ ({["clients.csv"; "holdings.csv"; "index.csv"; "sentiment.jsonl"]}
       ⊆ (dom zf : gset string)
     /\ ("prices.csv" ∈ (dom zf : gset string)
         \/ "prices.parquet" ∈ (dom zf : gset string))) ->
  ingest_upload clk file asOf sourceId key σ
  = (HTTPException 400
       ("Zip must include clients.csv, holdings.csv, index.csv, prices.csv (or prices.parquet), sentiment.jsonl. Found: "
        +:+ repr_list (sorted (dom zf))), σ).
Proof.
  intros Hzip Hfresh Hmissing. unfold main.ingest_upload.
  rewrite Hfresh, Hzip.
  destruct (existsb _ required_any) eqn:Hreq; [|done].
  by apply required_any_spec in Hreq.
Qed.

(** A repeated key short-circuits before the archive is opened. *)
Lemma ingest_upload_repeat clk file asOf sourceId key σ version :
  INGESTED_CHECKSUMS σ !! ingest_key file key = Some version ->
  ingest_upload clk file asOf sourceId key σ
  = (Ok (mkIngest version ("sha256:" +:+ sha256_hexdigest file) [] asOf
           (Some true) None), σ).
Proof. intros Hk. unfold main.ingest_upload. by rewrite Hk. Qed.

End IngestFacts.

(** ** Instances *)

Section Instances.
Import main judge_client.

Lemma rebalance_idempotent_witness :
  exists stored,
    REBALANCE_RESULTS
      (run no_float initial_state
         [Rebalance stub_env offline noon request_c001 (Some "retry-1")])
      !! "retry-1" = Some stored /\
    rebalance no_float stub_env offline noon request_next_day (Some "retry-1")
      (run no_float
         (run no_float initial_state
            [Rebalance stub_env offline noon request_c001 (Some "retry-1")])
         [IngestUpload noon empty_archive None None None;
          Ack (mkResponse "rb-0" [])])
    = (Ok stored,
       run no_float
         (run no_float initial_state
            [Rebalance stub_env offline noon request_c001 (Some "retry-1")])
         [IngestUpload noon empty_archive None None None;
          Ack (mkResponse "rb-0" [])]).
Proof.
  eexists. split.
  - reflexivity.
  - apply rebalance_idempotent. reflexivity.
Defined.

Lemma rebalance_price_fallback_witness :
  rebalance no_float stub_env offline noon request_c001 None state_without_aapl
  = (HTTPException 503
       "No price found for AAPL (asOf=2025-08-25). Upload prices via /ingest/upload or configure Robo Judge.",
     state_without_aapl)
  /\
  (rebalance no_float stub_env offline noon request_next_day None
     initial_state).1
  = Ok (mkResponse "rb-1756123230"
          (batch noon
             (qty_common request_next_day
                [SentimentRecord.mk "2025-08-25" "AAPL" "pos" 0.78
                   (Some "https://news.example/a")])
             (s_curve_price 227.13
                (qty_common request_next_day
                   [SentimentRecord.mk "2025-08-25" "AAPL" "pos" 0.78
                      (Some "https://news.example/a")])
                (adv_or_default (Some 82000000)) 4 0.1)
             ["C001"])).
Proof.
  split.
  - apply (proj1 (rebalance_price_fallback no_float stub_env offline noon
                    request_c001 None state_without_aapl
                    (init None None 10 None) ["C001"]
                    [PriceBar.mk "2025-08-25" "MSFT" 430.55 (Some 25000000)]
                    [PriceBar.mk "2025-08-25" "MSFT" 430.55 (Some 25000000)]
                    ltac:(discriminate) eq_refl eq_refl eq_refl
                    ltac:(repeat constructor; discriminate) eq_refl)).
    repeat constructor; discriminate.
  - apply (proj2 (rebalance_price_fallback no_float stub_env offline noon
                    request_next_day None initial_state
                    (init None None 10 None) ["C001"] []
                    (STUB_PRICES initial_fixtures)
                    ltac:(discriminate) eq_refl eq_refl eq_refl
                    ltac:(constructor) eq_refl)
             [] (PriceBar.mk "2025-08-25" "AAPL" 227.13 (Some 82000000)) _ _
             eq_refl ltac:(constructor) eq_refl eq_refl).
Defined.

Lemma rebalance_default_adv_witness :
  (rebalance no_float stub_env offline noon request_c001 None
     state_without_adv).1
  = Ok (mkResponse "rb-1756123230"
          (batch noon (qty_common request_c001 [])
             (s_curve_price 227.13 (qty_common request_c001 []) 1000000 4 0.1)
             ["C001"])).
Proof.
  apply (rebalance_default_adv no_float stub_env offline noon request_c001
           None state_without_adv (init None None 10 None) ["C001"]
           (PriceBar.mk "2025-08-25" "AAPL" 227.13 None) []
           ltac:(discriminate) eq_refl eq_refl eq_refl eq_refl
           (or_introl eq_refl)).
Defined.

Lemma ingest_rejects_incomplete_archive_witness :
  ingest_upload no_float noon empty_archive None None None initial_state
  = (HTTPException 400
       "Zip must include clients.csv, holdings.csv, index.csv, prices.csv (or prices.parquet), sentiment.jsonl. Found: []",
     initial_state).
Proof.
  apply (ingest_rejects_incomplete_archive no_float noon empty_archive
           None None None initial_state ∅ eq_refl eq_refl).
  rewrite dom_empty_L. intros [_ [H|H]]; by apply elem_of_empty in H.
Defined.

End Instances.

(** * Further properties of the code *)

(** ** The impact curve: slippage, monotonicity, price grid *)

Section CurveFacts.
Import Rounding main.

Lemma exp_le_mono (x y : R) : x <= y -> exp x <= exp y.
Proof.
  intros [Hlt| ->]; [|lra]. left. by apply exp_increasing.
Qed.

(** The impact grows with the participation ratio. *)
Lemma impact_mono (x y : R) :
  x <= y ->
  1 / (1 + exp (- (4) * (x - 1))) <= 1 / (1 + exp (- (4) * (y - 1))).
Proof.
  intros Hxy.
  pose proof (exp_pos (- (4) * (y - 1))) as Hp.
  assert (exp (- (4) * (y - 1)) <= exp (- (4) * (x - 1))) as He
    by (apply exp_le_mono; lra).
  unfold Rdiv. rewrite !Rmult_1_l. apply Rinv_le_contravar; lra.
Qed.

Lemma Rmax_one_pos (adv : R) : 1 <= Rmax adv 1.
Proof. apply Rmax_r. Qed.

(** The participation ratio grows with the order size and shrinks with the
    ADV. *)
Lemma participation_mono (n1 n2 : Z) (adv1 adv2 : R) :
  (0 <= n1 <= n2)%Z -> adv2 <= adv1 ->
  IZR n1 / (0.1 * Rmax adv1 1) <= IZR n2 / (0.1 * Rmax adv2 1).
Proof.
  intros [H0 Hn] Hadv.
  pose proof (Rmax_one_pos adv1) as H1. pose proof (Rmax_one_pos adv2) as H2.
  assert (Rmax adv2 1 <= Rmax adv1 1) as Hm by (by apply Rle_max_compat_r).
  apply IZR_le in H0, Hn.
  apply Rle_trans with (IZR n1 / (0.1 * Rmax adv2 1)).
  - unfold Rdiv. apply Rmult_le_compat_l; [done|].
    apply Rinv_le_contravar; lra.
  - unfold Rdiv. apply Rmult_le_compat_r; [|done].
    left. apply Rinv_0_lt_compat. lra.
Qed.

(** The execution price stays within 0.2 percent of the reference close, up
    to the half unit of the fourth decimal that rounding can add. *)
Theorem s_curve_price_slippage (prev_close : R) (order_qty : Z) (adv : R) :
  Rabs (s_curve_price prev_close order_qty adv 4 0.1 - prev_close)
  <= 0.002 * Rabs prev_close + 0.00005.
Proof.
  destruct (Z.ltb_spec 0 order_qty) as [Hq|Hq];
    [rewrite s_curve_price_buy by done|rewrite s_curve_price_sell by done];
    match goal with |- context [1 / (1 + exp ?t)] =>
      pose proof (sigmoid_bounds t) as [Hi0 Hi1];
      generalize dependent (1 / (1 + exp t)); intros imp Hi0 Hi1 end;
    match goal with |- context [round_ndigits ?y 4] =>
      pose proof (round_ndigits_error y) as [Hr1 Hr2];
      generalize dependent (round_ndigits y 4); intros p Hr1 Hr2 end;
    apply Rabs_le; unfold Rabs; destruct (Rcase_abs prev_close); split; nra.
Qed.

(** For a non-negative reference close the price never decreases when the
    signed order quantity increases: deeper sells are priced lower, larger
    buys higher, and no sell is priced above a buy. *)
Theorem s_curve_price_monotone_in_qty (prev_close : R) (q1 q2 : Z) (adv : R) :
  0 <= prev_close -> (q1 <= q2)%Z ->
  s_curve_price prev_close q1 adv 4 0.1 <= s_curve_price prev_close q2 adv 4 0.1.
Proof.
  intros Hc Hq.
  destruct (Z.ltb_spec 0 q1) as [H1|H1]; destruct (Z.ltb_spec 0 q2) as [H2|H2];
    try lia.
  - rewrite !s_curve_price_buy by done. apply round_ndigits_mono.
    pose proof (impact_mono _ _
      (participation_mono (Z.abs q1) (Z.abs q2) adv adv ltac:(lia) ltac:(lra))).
    nra.
  - rewrite s_curve_price_sell, s_curve_price_buy by done.
    apply round_ndigits_mono.
    match goal with |- context [_ - 0.002 * (1 / (1 + exp ?t))] =>
      pose proof (sigmoid_bounds t) as [Ha _] end.
    match goal with |- context [_ + 0.002 * (1 / (1 + exp ?t))] =>
      pose proof (sigmoid_bounds t) as [Hb _] end.
    nra.
  - rewrite !s_curve_price_sell by done. apply round_ndigits_mono.
    pose proof (impact_mono _ _
      (participation_mono (Z.abs q2) (Z.abs q1) adv adv ltac:(lia) ltac:(lra))).
    nra.
Qed.

Lemma s_curve_price_monotone_in_qty_witness :
  s_curve_price 227.13 (-10) 82000000 4 0.1
  <= s_curve_price 227.13 10 82000000 4 0.1.
Proof. apply s_curve_price_monotone_in_qty; [lra|lia]. Defined.

(** For a non-negative reference close, more liquidity never moves the price
    further from the close: a buy gets no dearer and a sell no cheaper when
    the ADV grows. *)
Theorem s_curve_price_monotone_in_adv (prev_close : R) (order_qty : Z)
    (adv1 adv2 : R) :
  0 <= prev_close -> adv1 <= adv2 ->
  ((0 < order_qty)%Z ->
   s_curve_price prev_close order_qty adv2 4 0.1
   <= s_curve_price prev_close order_qty adv1 4 0.1) /\
  ((order_qty <= 0)%Z ->
   s_curve_price prev_close order_qty adv1 4 0.1
   <= s_curve_price prev_close order_qty adv2 4 0.1).
Proof.
  intros Hc Hadv.
  pose proof (impact_mono _ _
    (participation_mono (Z.abs order_qty) (Z.abs order_qty) adv2 adv1
       ltac:(lia) Hadv)) as Hi.
  split; intros Hq.
  - rewrite !s_curve_price_buy by done. apply round_ndigits_mono. nra.
  - rewrite !s_curve_price_sell by done. apply round_ndigits_mono. nra.
Qed.

Lemma s_curve_price_monotone_in_adv_witness :
  ((0 < 10)%Z ->
   s_curve_price 227.13 10 82000000 4 0.1
   <= s_curve_price 227.13 10 1000000 4 0.1) /\
  ((10 <= 0)%Z ->
   s_curve_price 227.13 10 1000000 4 0.1
   <= s_curve_price 227.13 10 82000000 4 0.1).
Proof. apply s_curve_price_monotone_in_adv; lra. Defined.

(** Every execution price is a whole number of ten-thousandths, and rounding
    it again to 4 decimals gives it back. *)
Theorem s_curve_price_on_grid (prev_close : R) (order_qty : Z)
    (adv k half_adv : R) :
  (exists m : Z, s_curve_price prev_close order_qty adv k half_adv
                 = IZR m / 10000) /\
  round_ndigits (s_curve_price prev_close order_qty adv k half_adv) 4
  = s_curve_price prev_close order_qty adv k half_adv.
Proof.
  unfold s_curve_price.
  match goal with |- context [round_ndigits ?y 4] =>
    generalize y; intros z end.
  rewrite (round_ndigits_4 z). split; [by eexists|].
  apply round_ndigits_grid.
Qed.

End CurveFacts.

(** ** The stub data provider *)

Section StubFacts.
Import main judge_client.
Variable float_of_string : string -> option R.

Local Abbreviation rebalance := (main.rebalance float_of_string).
Local Abbreviation from_env := (judge_client.from_env float_of_string).

Lemma filter_all {A} (l : list A) : List.filter (fun _ => true) l = l.
Proof. induction l as [|x l IH]; simpl; by f_equal. Qed.

Lemma find_filter {A} (p f : A -> bool) (l : list A) :
  (forall x, p x = true -> f x = true) ->
  List.find p (List.filter f l) = List.find p l.
Proof.
  intros Hpf. induction l as [|x l IH]; [done|]. simpl.
  destruct (p x) eqn:Hp.
  - rewrite (Hpf x Hp). simpl. by rewrite Hp.
  - destruct (f x); simpl; by rewrite ?Hp.
Qed.

(** In stub mode the bar of a rebalance is found in the fixture list itself:
    the first bar of AAPL dated as-of, else the first bar of AAPL of any
    date; the look-up never fails. *)
Theorem resolve_price_stub (judge : RoboJudgeClient) (net : RemoteService)
    (fx : Fixtures) (req : RebalanceRequest) :
  use_stub judge = true ->
  resolve_price judge net fx req
  = Ok (match find_price (STUB_PRICES fx) "AAPL" (Some (asOf req)) with
        | Some pb => Some pb
        | None => find_price (STUB_PRICES fx) "AAPL" None
        end).
Proof.
  intros Hs. unfold resolve_price, get_prices. rewrite Hs. simpl.
  assert (find_price
            (List.filter
               (fun p => (negb (negb (bool_decide (asOf req = "")))
                          || bool_decide (Some (PriceBar.date p) = Some (asOf req)))
                         && true) (STUB_PRICES fx)) "AAPL" (Some (asOf req))
          = find_price (STUB_PRICES fx) "AAPL" (Some (asOf req))) as ->.
  { unfold find_price. apply find_filter. intros p Hp.
    apply andb_true_iff in Hp as [_ Hd]. apply bool_decide_eq_true in Hd.
    rewrite andb_true_r. apply orb_true_iff. right.
    apply bool_decide_eq_true. by rewrite Hd. }
  destruct (find_price (STUB_PRICES fx) "AAPL" (Some (asOf req))); [done|].
  simpl. by rewrite filter_all.
Qed.

Lemma resolve_price_stub_witness :
  resolve_price (init None None 10 None) offline initial_fixtures
    request_next_day
  = Ok (match find_price (STUB_PRICES initial_fixtures) "AAPL"
                (Some (asOf request_next_day)) with
        | Some pb => Some pb
        | None => find_price (STUB_PRICES initial_fixtures) "AAPL" None
        end).
Proof. by apply resolve_price_stub. Defined.

(** In stub mode a rebalance never consults the data service. *)
Theorem rebalance_stub_ignores_network env net net' clk req key σ judge :
  from_env env = Ok judge -> use_stub judge = true ->
  rebalance env net clk req key σ = rebalance env net' clk req key σ.
Proof.
  intros Hj Hs. unfold main.rebalance.
  assert (rebalance_compute float_of_string env net clk req (fixtures σ)
          = rebalance_compute float_of_string env net' clk req (fixtures σ))
    as ->; [|done].
  unfold rebalance_compute. rewrite Hj. simpl.
  unfold resolve_accounts, resolve_price, list_clients, get_prices,
    get_sentiment.
  by rewrite Hs.
Qed.

(** In stub mode an empty filter is no filter: an empty account list, an
    empty date or ticker text and an empty ticker list each select
    everything. *)
Theorem stub_empty_filter_selects_all judge net fx :
  use_stub judge = true ->
  list_holdings judge net fx (Some []) = Ok (STUB_HOLDINGS fx) /\
  get_prices judge net fx (Some "") (Some "") = Ok (STUB_PRICES fx) /\
  get_sentiment judge net fx None None (Some []) = Ok (STUB_SENTIMENT fx).
Proof.
  intros Hs. unfold list_holdings, get_prices, get_sentiment. rewrite Hs.
  simpl. by rewrite !filter_all.
Qed.

End StubFacts.

Section StubInstances.
Import main judge_client.

Lemma rebalance_stub_ignores_network_witness :
  rebalance no_float stub_env offline noon request_c001 None initial_state
  = rebalance no_float stub_env
      (mkRemote (fun _ _ => Ok ([], None)) (fun _ => Ok []) (Ok [])
         (fun _ _ => Ok []) (fun _ _ _ => Ok []))
      noon request_c001 None initial_state.
Proof.
  by apply (rebalance_stub_ignores_network no_float stub_env offline _ noon
              request_c001 None initial_state (init None None 10 None)).
Defined.

Lemma stub_empty_filter_selects_all_witness :
  list_holdings (init None None 10 None) offline initial_fixtures (Some [])
  = Ok (STUB_HOLDINGS initial_fixtures) /\
  get_prices (init None None 10 None) offline initial_fixtures
    (Some "") (Some "") = Ok (STUB_PRICES initial_fixtures) /\
  get_sentiment (init None None 10 None) offline initial_fixtures
    None None (Some []) = Ok (STUB_SENTIMENT initial_fixtures).
Proof. by apply stub_empty_filter_selects_all. Defined.

End StubInstances.

(** ** Paging through the clients *)

Section PagingFacts.
Import main judge_client.

Lemma pretty_N_char_digit (d : N) :
  (d < 10)%N ->
  is_digit (pretty_N_char d) = true
  /\ (nat_of_ascii (pretty_N_char d) - 48)%nat = N.to_nat d.
Proof.
  intros Hd.
  assert (d = 0 \/ d = 1 \/ d = 2 \/ d = 3 \/ d = 4 \/ d = 5 \/ d = 6
          \/ d = 7 \/ d = 8 \/ d = 9)%N as Hcases by lia.
  repeat (destruct Hcases as [->|Hcases]; [by split|]). by subst d.
Qed.

(** The numeral printed for [x] in front of a digit string reads back as
    [x] followed by that string. *)
Lemma pretty_N_go_reads (x : N) (s : string) :
  all_chars is_digit s = true ->
  all_chars is_digit (pretty_N_go x s) = true
  /\ digits_value 0 (pretty_N_go x s) = digits_value (N.to_nat x) s.
Proof.
  revert s. induction (N.lt_wf_0 x) as [x _ IH]; intros s Hs.
  assert (x = 0 \/ 0 < x)%N as [->|Hx] by lia.
  - by rewrite pretty_N_go_0.
  - rewrite pretty_N_go_step by done.
    destruct (pretty_N_char_digit (x `mod` 10)%N) as [Hd Hv].
    { by apply N.mod_lt. }
    destruct (IH (x `div` 10)%N) with
      (s := String (pretty_N_char (x `mod` 10)) s) as [H1 H2].
    { by apply N.div_lt. }
    { simpl. by rewrite Hd, Hs. }
    split; [done|]. rewrite H2. simpl. rewrite Hv. f_equal.
    pose proof (N.div_mod x 10 ltac:(done)) as Hdm.
    remember (x `div` 10)%N as a. remember (x `mod` 10)%N as b.
    clear -Hdm. subst x. lia.
Qed.

Lemma pretty_N_go_nonempty (x : N) (s : string) :
  (0 < x)%N -> pretty_N_go x s <> "".
Proof.
  revert s. induction (N.lt_wf_0 x) as [x _ IH]; intros s Hx.
  rewrite pretty_N_go_step by done.
  destruct (N.eq_0_gt_0_cases (x `div` 10)) as [->|Hd].
  - by rewrite pretty_N_go_0.
  - apply IH; [by apply N.div_lt|done].
Qed.

(** [int(str(n)) == n], and [str(n).isdigit()]. *)
Lemma cursor_round_trip (n : nat) :
  isdigit (pretty n) = true /\ py_int (Some (pretty n)) = Ok n.
Proof.
  assert (isdigit (pretty n) = true /\ digits_value 0 (pretty n) = n)
    as [Hd Hv]; [|by unfold py_int; rewrite Hd, Hv].
  unfold pretty, pretty_nat, pretty, pretty_N.
  destruct (decide (N.of_nat n = 0%N)) as [H0|Hn].
  - split; [done|]. simpl. lia.
  - destruct (pretty_N_go_reads (N.of_nat n) "" eq_refl) as [H1 H2].
    split.
    + unfold isdigit. rewrite H1, bool_decide_eq_false_2; [done|].
      apply pretty_N_go_nonempty. lia.
    + rewrite H2. simpl. lia.
Qed.

(** In stub mode the page at the cursor printed for [start] holds the
    clients from position [start] on, at most [limit] of them; the next
    cursor is absent exactly when the page reaches the end of the list, and
    otherwise the page at the next cursor continues where this one stops. *)
Theorem list_clients_stub_page judge net fx (limit start : nat) :
  use_stub judge = true ->
  exists items next,
    list_clients judge net fx limit (Some (pretty start)) = Ok (items, next)
    /\ items = take limit (drop start (STUB_CLIENTS fx))
    /\ items ++ drop (start + limit) (STUB_CLIENTS fx)
       = drop start (STUB_CLIENTS fx)
    /\ (next = None <-> length (STUB_CLIENTS fx) <= start + limit)%nat
    /\ (forall c, next = Some c ->
          list_clients judge net fx limit (Some c)
          = Ok (take limit (drop (start + limit) (STUB_CLIENTS fx)),
                if (start + limit + limit <? length (STUB_CLIENTS fx))%nat
                then Some (pretty (start + limit + limit)%nat) else None)).
Proof.
  intros Hs.
  assert (forall n, list_clients judge net fx limit (Some (pretty n))
          = Ok (take limit (drop n (STUB_CLIENTS fx)),
                if (n + limit <? length (STUB_CLIENTS fx))%nat
                then Some (pretty (n + limit)%nat) else None)) as Hpage.
  { intros n. unfold list_clients. rewrite Hs.
    destruct (cursor_round_trip n) as [Hd Hv].
    assert (py_or (Some (pretty n)) (Some "0") = Some (pretty n)) as ->.
    { unfold py_or, truthy. unfold isdigit in Hd.
      apply andb_true_iff in Hd as [Hd' _]. by rewrite Hd'. }
    change (default "0" (Some (pretty n))) with (pretty n).
    by rewrite Hd, Hv. }
  eexists _, _. split; [apply Hpage|]. split; [done|]. split; [|split].
  - rewrite <- drop_drop. apply take_drop.
  - destruct (Nat.ltb_spec (start + limit) (length (STUB_CLIENTS fx)));
      split; (done || lia).
  - intros c Hc.
    destruct (start + limit <? length (STUB_CLIENTS fx))%nat; [|done].
    injection Hc as <-. apply Hpage.
Qed.

Lemma list_clients_stub_page_witness :
  exists items next,
    list_clients (init None None 10 None) offline initial_fixtures 3
      (Some (pretty 0%nat)) = Ok (items, next)
    /\ items = take 3 (drop 0 (STUB_CLIENTS initial_fixtures))
    /\ items ++ drop (0 + 3) (STUB_CLIENTS initial_fixtures)
       = drop 0 (STUB_CLIENTS initial_fixtures)
    /\ (next = None <-> length (STUB_CLIENTS initial_fixtures) <= 0 + 3)%nat
    /\ (forall c, next = Some c ->
          list_clients (init None None 10 None) offline initial_fixtures 3
            (Some c)
          = Ok (take 3 (drop (0 + 3) (STUB_CLIENTS initial_fixtures)),
                if (0 + 3 + 3 <? length (STUB_CLIENTS initial_fixtures))%nat
                then Some (pretty (0 + 3 + 3)%nat) else None)).
Proof. by apply list_clients_stub_page. Defined.

(** A cursor of ASCII text that is not a decimal numeral is not an error in
    stub mode: the listing silently starts again from the first client. *)
Theorem list_clients_stub_bad_cursor judge net fx (limit : nat) (c : string) :
  use_stub judge = true -> c <> "" -> is_ascii_text c = true ->
  isdigit c = false ->
  list_clients judge net fx limit (Some c)
  = Ok (take limit (STUB_CLIENTS fx),
        if (limit <? length (STUB_CLIENTS fx))%nat
        then Some (pretty limit) else None).
Proof.
  intros Hs Hne _ Hd. unfold list_clients. rewrite Hs.
  unfold py_or, truthy. rewrite bool_decide_eq_false_2 by done. simpl.
  by rewrite Hd.
Qed.

Lemma list_clients_stub_bad_cursor_witness :
  list_clients (init None None 10 None) offline initial_fixtures 2 (Some "-1")
  = Ok (take 2 (STUB_CLIENTS initial_fixtures),
        if (2 <? length (STUB_CLIENTS initial_fixtures))%nat
        then Some (pretty 2%nat) else None).
Proof. by apply list_clients_stub_bad_cursor. Defined.

End PagingFacts.

(** ** The batch of a rebalance *)

Section BatchFacts.
Import Rounding main judge_client.
Variable float_of_string : string -> option R.

Local Abbreviation rebalance := (main.rebalance float_of_string).
Local Abbreviation rebalance_compute := (main.rebalance_compute float_of_string).
Local Abbreviation from_env := (judge_client.from_env float_of_string).
Local Abbreviation run := (main.run float_of_string).
Local Abbreviation handle := (main.handle float_of_string).

(** A rebalance changes the state in one way only: a computed result is
    added to the result store under a non-empty key that was not there.  A
    request without key, with an empty key, with a stored key, or one that
    fails leaves the state as it is. *)
Theorem rebalance_state_change env net clk req key σ :
  (rebalance env net clk req key σ).2 = σ
  \/ exists k resp,
       key = Some k /\ k <> "" /\ REBALANCE_RESULTS σ !! k = None
       /\ (rebalance env net clk req key σ).1 = Ok resp
       /\ (rebalance env net clk req key σ).2
          = mkState (fixtures σ) (INGESTED_CHECKSUMS σ)
              (<[k := resp]> (REBALANCE_RESULTS σ)) (ACKED_REQUESTS σ).
Proof.
  unfold main.rebalance.
  destruct key as [k|]; simpl.
  - case_bool_decide as Hk; simpl.
    + destruct (main.rebalance_compute _ _ _ _ _ _); auto.
    + destruct (REBALANCE_RESULTS σ !! k) eqn:Hlook; [auto|].
      destruct (main.rebalance_compute _ _ _ _ _ _) as [resp| |]; [|auto..].
      right. by exists k, resp.
  - destruct (main.rebalance_compute _ _ _ _ _ _); auto.
Qed.

Lemma batch_uniform clk q price accounts :
  Forall (fun o => ticker o = "AAPL" /\ side o = "BUY"
                   /\ qty o = q /\ execPrice o = price)
         (batch clk q price accounts).
Proof.
  unfold batch. generalize (now_iso clk).
  induction accounts as [|acc accounts IH]; intros ts; [constructor|].
  rewrite imap_cons. constructor; [done|]. apply IH.
Qed.

(** What a successful computation returns. *)
Lemma rebalance_compute_shape env net clk req fx resp :
  rebalance_compute env net clk req fx = Ok resp ->
  exists judge accounts pb senti,
    from_env env = Ok judge
    /\ get_sentiment judge net fx None None (Some ["AAPL"]) = Ok senti
    /\ resp = mkResponse ("rb-" +:+ pretty (timestamp clk))
                (batch clk (qty_common req senti)
                   (s_curve_price (PriceBar.close pb) (qty_common req senti)
                      (adv_or_default (PriceBar.adv pb)) 4 0.1)
                   accounts).
Proof.
  intros Hc.
  destruct (from_env env) as [judge| |] eqn:Hj;
    [|unfold main.rebalance_compute in Hc; by rewrite Hj in Hc..].
  destruct (resolve_accounts judge net fx req) as [accounts| |] eqn:Ha;
    [|unfold main.rebalance_compute in Hc; by rewrite Hj in Hc; simpl in Hc;
      rewrite Ha in Hc..].
  destruct (resolve_price judge net fx req) as [[pb|]| |] eqn:Hp;
    [|unfold main.rebalance_compute in Hc; by rewrite Hj in Hc; simpl in Hc;
      rewrite Ha in Hc; simpl in Hc; rewrite Hp in Hc..].
  destruct (get_sentiment judge net fx None None (Some ["AAPL"]))
    as [senti| |] eqn:Hs;
    [|unfold main.rebalance_compute in Hc; by rewrite Hj in Hc; simpl in Hc;
      rewrite Ha in Hc; simpl in Hc; rewrite Hp in Hc; simpl in Hc;
      rewrite Hs in Hc..].
  rewrite (rebalance_compute_ok float_of_string env net clk req fx judge
             accounts pb senti Hj Ha Hp Hs) in Hc.
  injection Hc as <-. by exists judge, accounts, pb, senti.
Qed.

Lemma rebalance_compute_uniform env net clk req fx resp :
  rebalance_compute env net clk req fx = Ok resp -> uniform_buy_batch resp.
Proof.
  intros Hc. apply rebalance_compute_shape in Hc
    as (judge & accounts & pb & senti & _ & _ & ->).
  eexists _, _. split; [|apply batch_uniform].
  unfold qty_common. lia.
Qed.

Lemma handle_results_uniform σ r :
  (forall k stored, REBALANCE_RESULTS σ !! k = Some stored ->
                    uniform_buy_batch stored) ->
  forall k stored, REBALANCE_RESULTS (handle σ r) !! k = Some stored ->
                   uniform_buy_batch stored.
Proof.
  intros Hinv k stored.
  destruct r as [clk file asOf sourceId key|env net clk req key|resp]; simpl.
  - rewrite (proj1 (ingest_upload_frame _ _ _ _ _ _ _)). apply Hinv.
  - unfold main.rebalance.
    destruct (if truthy key then _ else _); simpl; [apply Hinv|].
    destruct (main.rebalance_compute _ _ _ _ _ _) as [resp| |] eqn:Hc; simpl;
      [|apply Hinv..].
    destruct key as [k'|]; [|apply Hinv].
    destruct (truthy (Some k')); [|apply Hinv]. simpl.
    destruct (decide (k' = k)) as [->|Hne].
    + rewrite lookup_insert_eq. intros [= <-].
      by eapply rebalance_compute_uniform.
    + rewrite lookup_insert_ne by done. apply Hinv.
  - apply Hinv.
Qed.

Lemma run_results_uniform history k stored :
  REBALANCE_RESULTS (run initial_state history) !! k = Some stored ->
  uniform_buy_batch stored.
Proof.
  assert (forall σ,
    (forall k stored, REBALANCE_RESULTS σ !! k = Some stored ->
                      uniform_buy_batch stored) ->
    forall k stored, REBALANCE_RESULTS (run σ history) !! k = Some stored ->
                     uniform_buy_batch stored) as Hgen.
  { unfold main.run. induction history as [|r history IH]; intros σ Hinv;
      simpl; [done|]. by apply IH, handle_results_uniform. }
  apply Hgen. intros k' stored'. simpl. by rewrite lookup_empty.
Qed.

(** Whatever the server has handled since it started, every result that
    [/rebalance] returns - computed or replayed from the store - holds only
    BUY orders of AAPL, all with the same quantity, which is at least 1, and
    the same execution price. *)
Theorem rebalance_returns_uniform_buy_batch history env net clk req key resp :
  (rebalance env net clk req key (run initial_state history)).1 = Ok resp ->
  uniform_buy_batch resp.
Proof.
  unfold main.rebalance.
  destruct (if truthy key then _ else _) as [stored|] eqn:Hhit; simpl.
  - intros [= <-]. destruct (truthy key); [|done].
    destruct key as [k|]; [|done]. simpl in Hhit.
    by eapply run_results_uniform.
  - destruct (main.rebalance_compute _ _ _ _ _ _) eqn:Hc; [|done..].
    simpl. intros [= <-]. by eapply rebalance_compute_uniform.
Qed.

Lemma sentiment_tilt_range (senti : list SentimentRecord.t) :
  (forall s, s ∈ senti -> 0 <= SentimentRecord.score s <= 1) ->
  -1 <= sentiment_tilt senti <= 1.
Proof.
  intros Hscore. unfold sentiment_tilt.
  destruct (List.find _ senti) as [s|] eqn:Hfind; [|lra].
  apply find_some in Hfind as [Hin _].
  apply list_elem_of_In, Hscore in Hin. lra.
Qed.

Lemma batch_quantities clk q price accounts (P : Z -> Prop) :
  P q -> Forall (fun o => P (qty o)) (batch clk q price accounts).
Proof.
  intros HP. eapply Forall_impl; [apply batch_uniform|].
  intros o (_ & _ & -> & _). done.
Qed.

(** The order quantity of a computed batch: 10 shares when the sentiment
    answer holds no record of AAPL, whatever the sentiment weight; between 1
    and 20 shares when the scores lie in [0, 1] and the weight in [-1, 1];
    between 8 and 12 shares at the default weight 0.2. *)
Theorem rebalance_quantity env net clk req fx judge senti resp :
  from_env env = Ok judge ->
  get_sentiment judge net fx None None (Some ["AAPL"]) = Ok senti ->
  rebalance_compute env net clk req fx = Ok resp ->
  (Forall not_aapl senti -> Forall (fun o => qty o = 10%Z) (orders resp)) /\
  ((forall s, s ∈ senti -> 0 <= SentimentRecord.score s <= 1) ->
   -1 <= sentimentWeight req <= 1 ->
   Forall (fun o => (1 <= qty o <= 20)%Z) (orders resp)) /\
  ((forall s, s ∈ senti -> 0 <= SentimentRecord.score s <= 1) ->
   sentimentWeight req = 0.2 ->
   Forall (fun o => (8 <= qty o <= 12)%Z) (orders resp)).
Proof.
  intros Hj Hs Hc.
  apply rebalance_compute_shape in Hc
    as (judge' & accounts & pb & senti' & Hj' & Hs' & ->).
  rewrite Hj in Hj'. injection Hj' as <-.
  rewrite Hs in Hs'. injection Hs' as <-.
  simpl. unfold qty_common. split; [|split].
  - intros Hnone. apply (batch_quantities _ _ _ _ (fun q => q = 10%Z)).
    unfold sentiment_tilt. rewrite find_aapl_none by done.
    replace (10 * (1 + sentimentWeight req * 0)) with (IZR 10) by lra.
    by rewrite round_half_even_IZR.
  - intros Hscore Hw.
    apply (batch_quantities _ _ _ _ (fun q => (1 <= q <= 20)%Z)).
    pose proof (sentiment_tilt_range senti Hscore) as Ht.
    set (v := 10 * (1 + sentimentWeight req * sentiment_tilt senti)).
    assert (IZR 0 <= v <= IZR 20) as [Hlo Hhi] by (unfold v; nra).
    apply round_half_even_ge in Hlo. apply round_half_even_le in Hhi. lia.
  - intros Hscore Hw.
    apply (batch_quantities _ _ _ _ (fun q => (8 <= q <= 12)%Z)).
    pose proof (sentiment_tilt_range senti Hscore) as Ht.
    set (v := 10 * (1 + sentimentWeight req * sentiment_tilt senti)).
    assert (IZR 8 <= v <= IZR 12) as [Hlo Hhi] by (unfold v; rewrite Hw; lra).
    apply round_half_even_ge in Hlo. apply round_half_even_le in Hhi. lia.
Qed.

Lemma string_app_inj (p a b : string) : p +:+ a = p +:+ b -> a = b.
Proof. induction p as [|c p IH]; simpl; [done|]. intros [= H]. auto. Qed.

(** The request identifier of a computed result is the clock second it was
    computed in: two computed results carry the same identifier exactly when
    they were computed in the same second, and then acknowledging the one
    makes the acknowledgement of the other a duplicate. *)
Theorem request_id_is_the_second env net clk req fx r1 env' net' clk' req' fx' r2 :
  rebalance_compute env net clk req fx = Ok r1 ->
  rebalance_compute env' net' clk' req' fx' = Ok r2 ->
  (requestId r1 = requestId r2 <-> timestamp clk = timestamp clk') /\
  (timestamp clk = timestamp clk' ->
   forall σ, duplicate (ack r2 (ack r1 σ).2).1 = true).
Proof.
  intros H1 H2.
  apply rebalance_compute_shape in H1 as (? & ? & ? & ? & _ & _ & ->).
  apply rebalance_compute_shape in H2 as (? & ? & ? & ? & _ & _ & ->).
  cbn [requestId]. split.
  - split; [|by intros ->].
    intros Hid. apply string_app_inj in Hid. by apply (inj pretty) in Hid.
  - intros Hts σ. unfold ack. cbn [requestId fst snd duplicate ACKED_REQUESTS].
    rewrite Hts. by rewrite lookup_insert_eq.
Qed.

End BatchFacts.

Section BatchInstances.
Import main judge_client.

Lemma rebalance_returns_uniform_buy_batch_witness :
  exists resp,
    (rebalance no_float stub_env offline noon request_c001 None
       (run no_float initial_state [])).1 = Ok resp
    /\ uniform_buy_batch resp.
Proof.
  eexists. split; [reflexivity|].
  by apply (rebalance_returns_uniform_buy_batch no_float [] stub_env offline
              noon request_c001 None).
Defined.

Lemma rebalance_quantity_witness :
  exists resp,
    rebalance_compute no_float stub_env offline noon request_c001
      initial_fixtures = Ok resp
    /\ Forall (fun o => (1 <= qty o <= 20)%Z) (orders resp)
    /\ Forall (fun o => (8 <= qty o <= 12)%Z) (orders resp)
    /\ exists resp',
         rebalance_compute no_float stub_env offline noon request_c001
           (fixtures state_without_adv) = Ok resp'
         /\ Forall (fun o => qty o = 10%Z) (orders resp').
Proof.
  assert (forall s,
    s ∈ [SentimentRecord.mk "2025-08-25" "AAPL" "pos" 0.78
           (Some "https://news.example/a")] ->
    0 <= SentimentRecord.score s <= 1) as Hscore.
  { intros s Hs. apply list_elem_of_singleton in Hs as ->. simpl. lra. }
  eexists. split; [reflexivity|].
  destruct (rebalance_quantity no_float stub_env offline noon request_c001
              initial_fixtures (init None None 10 None)
              [SentimentRecord.mk "2025-08-25" "AAPL" "pos" 0.78
                 (Some "https://news.example/a")] _
              eq_refl eq_refl eq_refl) as (_ & H20 & H12).
  split; [apply H20; [exact Hscore|simpl; lra]|].
  split; [apply H12; [exact Hscore|simpl; lra]|].
  eexists. split; [reflexivity|].
  apply (rebalance_quantity no_float stub_env offline noon request_c001
           (fixtures state_without_adv) (init None None 10 None) []
           _ eq_refl eq_refl eq_refl).
  constructor.
Defined.

Lemma request_id_is_the_second_witness :
  exists r1 r2,
    rebalance_compute no_float stub_env offline noon request_c001
      initial_fixtures = Ok r1
    /\ rebalance_compute no_float stub_env offline noon request_next_day
         initial_fixtures = Ok r2
    /\ (requestId r1 = requestId r2 <-> timestamp noon = timestamp noon)
    /\ (timestamp noon = timestamp noon ->
        forall σ, duplicate (ack r2 (ack r1 σ).2).1 = true).
Proof.
  eexists _, _. split; [reflexivity|]. split; [reflexivity|].
  by apply (request_id_is_the_second no_float stub_env offline noon
              request_c001 initial_fixtures _ stub_env offline noon
              request_next_day initial_fixtures _).
Defined.

End BatchInstances.

(** ** Ingestion: registry, frames and failures *)

Section IngestMoreFacts.
Import main judge_client.
Variable float_of_string : string -> option R.

Local Abbreviation ingest_upload := (main.ingest_upload float_of_string).
Local Abbreviation run := (main.run float_of_string).
Local Abbreviation handle := (main.handle float_of_string).

(** The registry of an ingestion: unchanged, or extended at the key of the
    upload when that key was not registered. *)
Lemma ingest_upload_registry clk file asOf sourceId key σ :
  INGESTED_CHECKSUMS (ingest_upload clk file asOf sourceId key σ).2
  = INGESTED_CHECKSUMS σ
  \/ (INGESTED_CHECKSUMS σ !! ingest_key file key = None
      /\ exists resp,
           (ingest_upload clk file asOf sourceId key σ).1 = Ok resp
           /\ idempotent resp = None
           /\ datasetVersion resp = "v" +:+ strftime clk
           /\ INGESTED_CHECKSUMS (ingest_upload clk file asOf sourceId key σ).2
              = <[ingest_key file key := "v" +:+ strftime clk]>
                  (INGESTED_CHECKSUMS σ)).
Proof.
  unfold main.ingest_upload.
  destruct (INGESTED_CHECKSUMS σ !! _) eqn:Hk; [by left|].
  destruct (ZipFile file) as [zf|]; [|by left].
  destruct (negb _); [by left|].
  destruct (and_then _ _ _) as [[u| |] fx]; [|by left..].
  right. split; [done|]. by eexists.
Qed.

Lemma handle_ingested_stable σ r k version :
  INGESTED_CHECKSUMS σ !! k = Some version ->
  INGESTED_CHECKSUMS (handle σ r) !! k = Some version.
Proof.
  intros Hk.
  destruct r as [clk file asOf sourceId key|env net clk req key|resp]; simpl.
  - destruct (ingest_upload_registry clk file asOf sourceId key σ)
      as [->|(Hfresh & _ & _ & _ & _ & ->)]; [done|].
    rewrite lookup_insert_ne; [done|]. intros <-. congruence.
  - by rewrite (proj1 (proj2 (rebalance_frame _ _ _ _ _ _ _))).
  - done.
Qed.

Lemma run_ingested_stable history σ k version :
  INGESTED_CHECKSUMS σ !! k = Some version ->
  INGESTED_CHECKSUMS (run σ history) !! k = Some version.
Proof.
  unfold main.run. revert σ.
  induction history as [|r history IH]; intros σ Hk; simpl; [done|].
  by apply IH, handle_ingested_stable.
Qed.

(** Once a key is registered, every later upload under that key - whatever
    its bytes, after any further requests - is answered with the registered
    dataset version, an empty file list and the idempotent flag, and changes
    nothing; the archive is not even opened. *)
Theorem ingest_upload_idempotent history later clk file asOf sourceId key
    version :
  INGESTED_CHECKSUMS (run initial_state history) !! ingest_key file key
  = Some version ->
  ingest_upload clk file asOf sourceId key (run (run initial_state history) later)
  = (Ok (mkIngest version ("sha256:" +:+ sha256_hexdigest file) [] asOf
           (Some true) None),
     run (run initial_state history) later).
Proof.
  intros Hk. apply ingest_upload_repeat. by apply run_ingested_stable.
Qed.

(** A caller-supplied non-empty key is the deduplication key, whatever the
    file; without one (or with an empty one) the key is the checksum. *)
Lemma ingest_key_header (file : UploadFile) (k : string) :
  k <> "" -> ingest_key file (Some k) = k.
Proof.
  intros Hk. unfold ingest_key, py_or, truthy.
  by rewrite bool_decide_eq_false_2.
Qed.

(** An upload changes the registry only when it is ingested with success
    under a key that was not registered: the key then maps to the version
    made from the clock.  A failed upload registers nothing, so that a retry
    is processed again. *)
Theorem ingest_upload_registers_on_success clk file asOf sourceId key σ :
  (forall resp,
     (ingest_upload clk file asOf sourceId key σ).1 = Ok resp ->
     INGESTED_CHECKSUMS (ingest_upload clk file asOf sourceId key σ).2
       !! ingest_key file key = Some (datasetVersion resp)) /\
  ((forall resp, (ingest_upload clk file asOf sourceId key σ).1 <> Ok resp) ->
   INGESTED_CHECKSUMS (ingest_upload clk file asOf sourceId key σ).2
   = INGESTED_CHECKSUMS σ).
Proof.
  split.
  - intros resp. unfold main.ingest_upload.
    destruct (INGESTED_CHECKSUMS σ !! _) eqn:Hk.
    { simpl. intros [= <-]. done. }
    destruct (ZipFile file) as [zf|]; [|done].
    destruct (negb _); [done|].
    destruct (and_then _ _ _) as [[u| |] fx]; [|done..].
    simpl. intros [= <-]. simpl. by rewrite lookup_insert_eq.
  - intros Hfail.
    destruct (ingest_upload_registry clk file asOf sourceId key σ)
      as [->|(_ & resp & Hok & _)]; [done|].
    by destruct (Hfail resp).
Qed.

(** An upload that gets past the archive check runs the five loads: the
    fixtures are those they leave, and the upload succeeds exactly when no
    load raises. *)
Lemma ingest_upload_loads clk file asOf sourceId key σ zf :
  INGESTED_CHECKSUMS σ !! ingest_key file key = None ->
  ZipFile file = Some zf ->
  existsb (fun req => bool_decide (req ⊆ dom zf)) required_any = true ->
  ingest_upload clk file asOf sourceId key σ
  = match load_all float_of_string zf (fixtures σ) with
    | (Ok _, fx) =>
        (Ok (mkIngest ("v" +:+ strftime clk)
               ("sha256:" +:+ sha256_hexdigest file) (sorted (dom zf)) asOf
               None (Some (bool_decide ("prices.csv" ∈ (dom zf : gset string))))),
         mkState fx
           (<[ingest_key file key := "v" +:+ strftime clk]>
              (INGESTED_CHECKSUMS σ))
           (REBALANCE_RESULTS σ) (ACKED_REQUESTS σ))
    | (HTTPException c d, fx) =>
        (HTTPException c d,
         mkState fx (INGESTED_CHECKSUMS σ) (REBALANCE_RESULTS σ)
           (ACKED_REQUESTS σ))
    | (Raised e, fx) =>
        (Raised e,
         mkState fx (INGESTED_CHECKSUMS σ) (REBALANCE_RESULTS σ)
           (ACKED_REQUESTS σ))
    end.
Proof.
  intros Hfresh Hzip Hreq.
  unfold main.ingest_upload. by rewrite Hfresh, Hzip, Hreq.
Qed.

Lemma append_each_all {A B} (conv : A -> outcome B) rows bs acc :
  Forall2 (fun r b => conv r = Ok b) rows bs ->
  append_each conv rows acc = (Ok tt, acc ++ bs).
Proof.
  intros Hall. revert acc.
  induction Hall as [|r b rows bs Hr _ IH]; intros acc; simpl.
  - by rewrite app_nil_r.
  - rewrite Hr, IH. by rewrite <- app_assoc.
Qed.

Lemma append_each_ok {A B} (conv : A -> outcome B) rows acc u lst :
  append_each conv rows acc = (Ok u, lst) ->
  exists bs, lst = acc ++ bs /\ Forall2 (fun r b => conv r = Ok b) rows bs.
Proof.
  revert acc. induction rows as [|r rows IH]; intros acc; simpl.
  - intros [= _ <-]. exists []. by rewrite app_nil_r.
  - destruct (conv r) as [b| |] eqn:Hr; [|done..].
    intros H. apply IH in H as (bs & -> & Hbs).
    exists (b :: bs). rewrite <- app_assoc. split; [done|]. by constructor.
Qed.

(** A row that raises ends the loop and keeps what was appended before. *)
Lemma append_each_raise {A B} (conv : A -> outcome B) good bs bad rest e acc :
  Forall2 (fun r b => conv r = Ok b) good bs -> conv bad = Raised e ->
  append_each conv (good ++ bad :: rest) acc = (Raised e, acc ++ bs).
Proof.
  intros Hgood Hbad. revert acc.
  induction Hgood as [|r b good bs Hr _ IH]; intros acc; simpl.
  - by rewrite Hbad, app_nil_r.
  - rewrite Hr, IH. by rewrite <- app_assoc.
Qed.

Lemma and_then_ok a b fx u fx2 :
  and_then a b fx = (Ok u, fx2) ->
  exists fx1, a fx = (Ok tt, fx1) /\ b fx1 = (Ok u, fx2).
Proof.
  unfold and_then. destruct (a fx) as [[[]| |] fx1]; [|done..].
  intros H. by exists fx1.
Qed.

Lemma and_then_raise a b fx e fx1 :
  a fx = (Raised e, fx1) -> and_then a b fx = (Raised e, fx1).
Proof. intros H. unfold and_then. by rewrite H. Qed.

Lemma and_then_keeps {X} (proj : Fixtures -> X) a b :
  (forall fx, proj (a fx).2 = proj fx) ->
  (forall fx, proj (b fx).2 = proj fx) ->
  forall fx, proj (and_then a b fx).2 = proj fx.
Proof.
  intros Ha Hb fx. unfold and_then. specialize (Ha fx).
  destruct (a fx) as [[u| |] fx1]; simpl in *; [|done..].
  by rewrite Hb.
Qed.

Lemma load_csv_keeps {X B} (proj : Fixtures -> X) zf name
    (conv : gmap string (option string) -> outcome B) set :
  (forall l fx, proj (set l fx) = proj fx) ->
  forall fx, proj (load_csv zf name conv set fx).2 = proj fx.
Proof.
  intros Hset fx. unfold load_csv.
  destruct (zf !! name) as [m|]; [|done].
  destruct (read_csv m); [|done..].
  destruct (append_each _ _ _). simpl. apply Hset.
Qed.

Lemma load_csv_absent {B} zf name
    (conv : gmap string (option string) -> outcome B)
    set fx :
  zf !! name = None -> load_csv zf name conv set fx = (Ok tt, fx).
Proof. intros H. unfold load_csv. by rewrite H. Qed.

Lemma load_csv_ok {B} zf name
    (conv : gmap string (option string) -> outcome B)
    set fx m u fx1 :
  zf !! name = Some m -> load_csv zf name conv set fx = (Ok u, fx1) ->
  exists rows bs,
    read_csv m = Ok rows /\ Forall2 (fun r b => conv r = Ok b) rows bs
    /\ fx1 = set bs fx.
Proof.
  intros Hm. unfold load_csv. rewrite Hm.
  destruct (read_csv m) as [rows| |]; [|done..].
  destruct (append_each conv rows []) as [r lst] eqn:Happ.
  intros [= -> <-].
  apply append_each_ok in Happ as (bs & -> & Hbs). by exists rows, bs.
Qed.

Lemma load_sentiment_keeps {X} (proj : Fixtures -> X) zf :
  (forall c h i p s s', proj (mkFixtures c h i p s) = proj (mkFixtures c h i p s')) ->
  forall fx, proj (load_sentiment float_of_string zf fx).2 = proj fx.
Proof.
  intros Hproj fx. unfold load_sentiment.
  destruct (zf !! "sentiment.jsonl") as [m|]; [|done].
  destruct (append_each _ _ _). simpl. by destruct fx.
Qed.

(** Without [prices.csv] in the archive - with [prices.parquet] in its place,
    or with a refused or unreadable upload - the price list stays as it was,
    and the answer never reports parsed prices. *)
Theorem ingest_upload_keeps_prices_without_csv clk file asOf sourceId key σ :
  (forall zf, ZipFile file = Some zf -> zf !! "prices.csv" = None) ->
  STUB_PRICES (fixtures (ingest_upload clk file asOf sourceId key σ).2)
  = STUB_PRICES (fixtures σ)
  /\ forall resp,
       (ingest_upload clk file asOf sourceId key σ).1 = Ok resp ->
       parsed_prices_csv resp <> Some true.
Proof.
  intros Hno. unfold main.ingest_upload.
  destruct (INGESTED_CHECKSUMS σ !! _); [split; [done|by intros resp [= <-]]|].
  destruct (ZipFile file) as [zf|]; [|done].
  specialize (Hno zf eq_refl).
  destruct (negb _); [done|].
  match goal with |- context [and_then ?a ?b ?fx] =>
    assert (STUB_PRICES (and_then a b fx).2 = STUB_PRICES fx) as Hkeep end.
  { repeat (apply and_then_keeps; [by intros; apply load_csv_keeps|]; intros).
    apply and_then_keeps; intros.
    - by rewrite load_csv_absent.
    - by apply load_sentiment_keeps. }
  destruct (and_then _ _ _) as [[u| |] fx]; simpl in *; split; try done.
  intros resp [= <-]. simpl.
  rewrite bool_decide_eq_false_2; [done|]. by apply not_elem_of_dom.
Qed.

(** A row that raises in [clients.csv] stops the ingestion without rollback:
    the client list has been cleared and holds the clients of the rows before
    the failing one, the other four lists and the stores are untouched, and
    the key is not registered. *)
Theorem ingest_upload_no_rollback clk file asOf sourceId key σ zf m good cs
    bad rest e :
  INGESTED_CHECKSUMS σ !! ingest_key file key = None ->
  ZipFile file = Some zf ->
  {["clients.csv"; "holdings.csv"; "index.csv"; "sentiment.jsonl"]}
    ⊆ (dom zf : gset string)
  /\ ("prices.csv" ∈ (dom zf : gset string)
      \/ "prices.parquet" ∈ (dom zf : gset string)) ->
  zf !! "clients.csv" = Some m ->
  read_csv m = Ok (good ++ bad :: rest) ->
  Forall2 (fun r c => client_of_row r = Ok c) good cs ->
  client_of_row bad = Raised e ->
  ingest_upload clk file asOf sourceId key σ
  = (Raised e,
     mkState
       (mkFixtures cs (STUB_HOLDINGS (fixtures σ)) (STUB_INDEX (fixtures σ))
          (STUB_PRICES (fixtures σ)) (STUB_SENTIMENT (fixtures σ)))
       (INGESTED_CHECKSUMS σ) (REBALANCE_RESULTS σ) (ACKED_REQUESTS σ)).
Proof.
  intros Hfresh Hzip Hreq Hm Hrows Hgood Hbad.
  apply (required_any_spec float_of_string) in Hreq.
  rewrite (ingest_upload_loads clk file asOf sourceId key σ zf) by done.
  assert (load_all float_of_string zf (fixtures σ)
          = (Raised e,
             mkFixtures cs (STUB_HOLDINGS (fixtures σ))
               (STUB_INDEX (fixtures σ)) (STUB_PRICES (fixtures σ))
               (STUB_SENTIMENT (fixtures σ)))) as ->; [|done].
  unfold load_all. apply and_then_raise.
  unfold load_csv. rewrite Hm, Hrows.
  by rewrite (append_each_raise client_of_row good cs bad rest e []).
Qed.

Lemma load_sentiment_ok zf fx m u fx1 :
  zf !! "sentiment.jsonl" = Some m ->
  load_sentiment float_of_string zf fx = (Ok u, fx1) ->
  exists recs,
    Forall2 (fun line rec => sentiment_of_line float_of_string line = Ok rec)
            (json_lines m) recs
    /\ fx1 = mkFixtures (STUB_CLIENTS fx) (STUB_HOLDINGS fx) (STUB_INDEX fx)
               (STUB_PRICES fx) recs.
Proof.
  intros Hm. unfold load_sentiment. rewrite Hm.
  destruct (append_each _ (json_lines m) []) as [r lst] eqn:Happ.
  intros [= -> <-].
  apply append_each_ok in Happ as (recs & -> & Hrecs). by exists recs.
Qed.

(** A successful ingestion replaces the fixture lists wholesale: afterwards
    the clients, holdings and index constituents are the records of the rows
    of their files, in file order, and the sentiment records those of the
    lines of [sentiment.jsonl]; nothing of the former lists remains.  The
    prices are the records of [prices.csv] when the archive has that member,
    and the former prices otherwise. *)
Theorem ingest_upload_replaces_wholesale clk file asOf sourceId key σ zf resp
    σ' :
  ZipFile file = Some zf ->
  ingest_upload clk file asOf sourceId key σ = (Ok resp, σ') ->
  idempotent resp = None ->
  (exists m rows,
     zf !! "clients.csv" = Some m /\ read_csv m = Ok rows
     /\ Forall2 (fun r c => client_of_row r = Ok c) rows
                (STUB_CLIENTS (fixtures σ'))) /\
  (exists m rows,
     zf !! "holdings.csv" = Some m /\ read_csv m = Ok rows
     /\ Forall2 (fun r h => holding_of_row float_of_string r = Ok h) rows
                (STUB_HOLDINGS (fixtures σ'))) /\
  (exists m rows,
     zf !! "index.csv" = Some m /\ read_csv m = Ok rows
     /\ Forall2 (fun r i => index_of_row float_of_string r = Ok i) rows
                (STUB_INDEX (fixtures σ'))) /\
  (exists m,
     zf !! "sentiment.jsonl" = Some m
     /\ Forall2 (fun line rec => sentiment_of_line float_of_string line = Ok rec)
                (json_lines m) (STUB_SENTIMENT (fixtures σ'))) /\
  match zf !! "prices.csv" with
  | Some m =>
      exists rows,
        read_csv m = Ok rows
        /\ Forall2 (fun r p => price_of_row float_of_string r = Ok p) rows
                   (STUB_PRICES (fixtures σ'))
  | None => STUB_PRICES (fixtures σ') = STUB_PRICES (fixtures σ)
  end.
Proof.
  intros Hzip Hok Hfresh.
  assert (INGESTED_CHECKSUMS σ !! ingest_key file key = None) as Hkey.
  { destruct (INGESTED_CHECKSUMS σ !! ingest_key file key) eqn:Hk; [|done].
    rewrite (ingest_upload_repeat _ _ _ _ _ _ _ _ Hk) in Hok.
    injection Hok as <- _. done. }
  assert (existsb (fun req => bool_decide (req ⊆ dom zf)) required_any = true)
    as Hreq.
  { destruct (existsb _ required_any) eqn:Hreq; [done|].
    unfold main.ingest_upload in Hok. by rewrite Hkey, Hzip, Hreq in Hok. }
  rewrite (ingest_upload_loads clk file asOf sourceId key σ zf) in Hok by done.
  destruct (load_all float_of_string zf (fixtures σ)) as [[u| |] fx] eqn:Hload;
    [|done..].
  injection Hok as _ <-. simpl.
  apply (required_any_spec float_of_string) in Hreq as [Hfour _].
  assert (forall name,
    name ∈ ({["clients.csv"; "holdings.csv"; "index.csv"; "sentiment.jsonl"]}
            : gset string) -> is_Some (zf !! name)) as Hpresent.
  { intros name Hname. apply elem_of_dom. by apply Hfour. }
  destruct (Hpresent "clients.csv") as [m1 Hm1]; [set_unfold; tauto|].
  destruct (Hpresent "holdings.csv") as [m2 Hm2]; [set_unfold; tauto|].
  destruct (Hpresent "index.csv") as [m3 Hm3]; [set_unfold; tauto|].
  destruct (Hpresent "sentiment.jsonl") as [m5 Hm5]; [set_unfold; tauto|].
  unfold load_all in Hload.
  apply and_then_ok in Hload as (fx1 & H1 & Hload).
  apply and_then_ok in Hload as (fx2 & H2 & Hload).
  apply and_then_ok in Hload as (fx3 & H3 & Hload).
  apply and_then_ok in Hload as (fx4 & H4 & H5).
  apply (load_csv_ok _ _ _ _ _ m1) in H1 as (rows1 & l1 & Hr1 & Hc1 & ->);
    [|done].
  apply (load_csv_ok _ _ _ _ _ m2) in H2 as (rows2 & l2 & Hr2 & Hc2 & ->);
    [|done].
  apply (load_csv_ok _ _ _ _ _ m3) in H3 as (rows3 & l3 & Hr3 & Hc3 & ->);
    [|done].
  apply (load_sentiment_ok _ _ m5) in H5 as (recs & Hc5 & ->); [|done].
  simpl.
  destruct (zf !! "prices.csv") as [m4|] eqn:Hm4.
  - apply (load_csv_ok _ _ _ _ _ m4) in H4 as (rows4 & l4 & Hr4 & Hc4 & ->);
      [|done].
    simpl. repeat split; eauto 6.
  - rewrite load_csv_absent in H4 by done. injection H4 as <-.
    simpl. repeat split; eauto 6.
Qed.

End IngestMoreFacts.

Section IngestInstances.
Import main judge_client.

Lemma ingest_upload_idempotent_witness :
  ingest_upload no_float noon broken_clients_archive None None (Some "load-1")
    (run no_float
       (run no_float initial_state
          [IngestUpload noon minimal_archive None None (Some "load-1")])
       [Ack (mkResponse "rb-0" [])])
  = (Ok (mkIngest "v20250825-120030"
           ("sha256:" +:+ sha256_hexdigest broken_clients_archive) [] None
           (Some true) None),
     run no_float
       (run no_float initial_state
          [IngestUpload noon minimal_archive None None (Some "load-1")])
       [Ack (mkResponse "rb-0" [])]).
Proof.
  apply (ingest_upload_idempotent no_float
           [IngestUpload noon minimal_archive None None (Some "load-1")]
           [Ack (mkResponse "rb-0" [])] noon broken_clients_archive None None
           (Some "load-1") "v20250825-120030").
  reflexivity.
Defined.

Lemma ingest_upload_registers_on_success_witness :
  INGESTED_CHECKSUMS
    (ingest_upload no_float noon minimal_archive None None (Some "load-1")
       initial_state).2 !! "load-1" = Some "v20250825-120030"
  /\ INGESTED_CHECKSUMS
       (ingest_upload no_float noon empty_archive None None None
          initial_state).2
     = INGESTED_CHECKSUMS initial_state.
Proof.
  split.
  - apply (proj1 (ingest_upload_registers_on_success no_float noon
                    minimal_archive None None (Some "load-1") initial_state)
             (mkIngest "v20250825-120030"
                ("sha256:" +:+ sha256_hexdigest minimal_archive)
                (sorted (dom (default ∅ (ZipFile minimal_archive)))) None None
                (Some true))).
    reflexivity.
  - apply (proj2 (ingest_upload_registers_on_success no_float noon
                    empty_archive None None None initial_state)).
    intros resp. rewrite ingest_rejects_incomplete_archive_witness.
    discriminate.
Defined.

Lemma ingest_upload_keeps_prices_without_csv_witness :
  STUB_PRICES
    (fixtures (ingest_upload no_float noon parquet_archive None None None
                 initial_state).2)
  = STUB_PRICES (fixtures initial_state)
  /\ forall resp,
       (ingest_upload no_float noon parquet_archive None None None
          initial_state).1 = Ok resp ->
       parsed_prices_csv resp <> Some true.
Proof.
  apply ingest_upload_keeps_prices_without_csv.
  intros zf [= <-]. reflexivity.
Defined.

Lemma ingest_upload_no_rollback_witness :
  ingest_upload no_float noon broken_clients_archive None None None
    initial_state
  = (Raised "ValidationError",
     mkState
       (mkFixtures [Client.mk "C900" "retail" "balanced" []]
          (STUB_HOLDINGS initial_fixtures) (STUB_INDEX initial_fixtures)
          (STUB_PRICES initial_fixtures) (STUB_SENTIMENT initial_fixtures))
       ∅ ∅ ∅).
Proof.
  apply (ingest_upload_no_rollback no_float noon broken_clients_archive None
           None None initial_state
           (default ∅ (ZipFile broken_clients_archive))
           (mkMember
              (Ok [ {["client_id" := Some "C900"; "segment" := Some "retail"]};
                    {["client_id" := Some ""; "segment" := Some "retail"]} ])
              [])
           [ {["client_id" := Some "C900"; "segment" := Some "retail"]} ]
           [Client.mk "C900" "retail" "balanced" []]
           {["client_id" := Some ""; "segment" := Some "retail"]} []
           "ValidationError"
           eq_refl eq_refl).
  - apply (required_any_spec no_float). reflexivity.
  - reflexivity.
  - reflexivity.
  - repeat constructor.
  - reflexivity.
Defined.

Lemma ingest_upload_replaces_wholesale_witness :
  exists resp σ',
    ingest_upload no_float noon minimal_archive None None None initial_state
    = (Ok resp, σ')
    /\ STUB_CLIENTS (fixtures σ') = [Client.mk "C900" "retail" "balanced" []]
    /\ exists m rows,
         default ∅ (ZipFile minimal_archive) !! "clients.csv" = Some m
         /\ read_csv m = Ok rows
         /\ Forall2 (fun r c => client_of_row r = Ok c) rows
                    (STUB_CLIENTS (fixtures σ')).
Proof.
  eexists _, _. split; [reflexivity|]. split; [reflexivity|].
  apply (ingest_upload_replaces_wholesale no_float noon minimal_archive None
           None None initial_state (default ∅ (ZipFile minimal_archive))
           _ _ eq_refl eq_refl eq_refl).
Defined.

End IngestInstances.

(** ** Ticker filters and mode selection of the provider *)

Section ProviderFacts.
Import main judge_client.

Lemma upper_ascii_idem (c : ascii) : upper_ascii (upper_ascii c) = upper_ascii c.
Proof. destruct c as [[] [] [] [] [] [] [] []]; reflexivity. Qed.

Lemma upper_idem (s : string) : upper (upper s) = upper s.
Proof.
  induction s as [|c s IH]; [done|].
  unfold upper in *. simpl. by rewrite upper_ascii_idem, IH.
Qed.

(** In stub mode, a sentiment query with a non-empty ticker list returns the
    fixture records whose ticker is the upper-cased form of a requested
    ticker, in fixture order.  The request is case-insensitive but the stored
    tickers are compared as they are: a record whose ticker is not already in
    upper case is never returned by a ticker filter. *)
Theorem get_sentiment_stub_tickers judge net fx from_date to_date t ts :
  use_stub judge = true ->
  Forall (fun t' => is_ascii_text t' = true) (t :: ts) ->
  exists res,
    get_sentiment judge net fx from_date to_date (Some (t :: ts)) = Ok res
    /\ (forall s, s ∈ res <->
          s ∈ STUB_SENTIMENT fx
          /\ exists t', t' ∈ t :: ts /\ SentimentRecord.ticker s = upper t')
    /\ (forall s, s ∈ res ->
          upper (SentimentRecord.ticker s) = SentimentRecord.ticker s).
Proof.
  intros Hs _. unfold get_sentiment. rewrite Hs. simpl.
  eexists. split; [reflexivity|].
  assert (forall s,
    s ∈ List.filter
          (fun s0 =>
             bool_decide (({[upper t]} ∪ list_to_set (upper <$> ts)
                           : gset string) = ∅)
             || bool_decide (SentimentRecord.ticker s0
                             ∈ ({[upper t]} ∪ list_to_set (upper <$> ts)
                                : gset string)))
          (STUB_SENTIMENT fx) <->
    s ∈ STUB_SENTIMENT fx
    /\ exists t', t' ∈ t :: ts /\ SentimentRecord.ticker s = upper t') as Hspec.
  { intros s. rewrite list_elem_of_In, filter_In, <- list_elem_of_In.
    rewrite bool_decide_eq_false_2; [simpl|set_unfold; naive_solver].
    rewrite bool_decide_eq_true.
    rewrite elem_of_union, elem_of_singleton, elem_of_list_to_set,
      list_elem_of_fmap.
    split; intros [Hin Ht]; (split; [done|]).
    - destruct Ht as [Ht|(t' & Ht & Hin')].
      + exists t. split; [left|done].
      + exists t'. split; [by right|done].
    - destruct Ht as (t' & Hin' & Ht).
      apply elem_of_cons in Hin' as [->|Hin']; [by left|right; eauto]. }
  split; [exact Hspec|].
  intros s Hin. apply Hspec in Hin as (_ & t' & _ & ->). apply upper_idem.
Qed.

Lemma get_sentiment_stub_tickers_witness :
  exists res,
    get_sentiment (init None None 10 None) offline initial_fixtures None None
      (Some ["aapl"; "msft"]) = Ok res
    /\ (forall s, s ∈ res <->
          s ∈ STUB_SENTIMENT initial_fixtures
          /\ exists t', t' ∈ ["aapl"; "msft"]
                        /\ SentimentRecord.ticker s = upper t')
    /\ (forall s, s ∈ res ->
          upper (SentimentRecord.ticker s) = SentimentRecord.ticker s).
Proof.
  apply get_sentiment_stub_tickers; [reflexivity|].
  repeat constructor.
Defined.

(** The provider works against the remote service exactly when the mode
    variable is set to something else than "stub" (in any letter case) and
    the URL variable is set and not empty; a URL alone, or a mode alone,
    leaves it in stub mode. *)
Theorem init_remote_mode (base_url api_key : option string) (timeout : R)
    (mode : option string) :
  (forall m, mode = Some m -> is_ascii_text m = true) ->
  use_stub (init base_url api_key timeout mode) = false <->
  (exists m, mode = Some m /\ lower m <> "stub")
  /\ (exists u, base_url = Some u /\ u <> "").
Proof.
  intros _.
  unfold init. simpl. rewrite orb_false_iff, negb_false_iff.
  rewrite bool_decide_eq_false. unfold truthy. split.
  - intros [Hm Hu]. split.
    + destruct mode as [m|]; [by exists m|]. by destruct Hm.
    + destruct base_url as [u|]; [|done]. exists u. split; [done|].
      apply negb_true_iff, bool_decide_eq_false in Hu. done.
  - intros [(m & -> & Hm) (u & -> & Hu)]. split; [done|].
    apply negb_true_iff. by apply bool_decide_eq_false.
Qed.

Lemma init_remote_mode_witness :
  use_stub (init (Some "http://judge:9000") None 10 (Some "Remote")) = false
  /\ use_stub (init (Some "http://judge:9000") None 10 (Some "STUB")) = true
  /\ use_stub (init (Some "http://judge:9000") None 10 None) = true
  /\ use_stub (init None None 10 (Some "remote")) = true.
Proof.
  split; [|by repeat split].
  apply init_remote_mode.
  - by intros m [= <-].
  - split; [exists "Remote"|exists "http://judge:9000"]; by split.
Defined.

(** An acknowledgement looks at the request identifier only: after one
    acknowledgement, any response with the same identifier - whatever its
    orders - is reported as a duplicate, with its own order count echoed, and
    leaves the state as the first acknowledgement made it. *)
Theorem ack_same_identifier (resp resp' : RebalanceResponse) (σ : State) :
  requestId resp' = requestId resp ->
  ack resp' (ack resp σ).2
  = (mkAck "ok" true (requestId resp) (length (orders resp')), (ack resp σ).2).
Proof.
  intros Hid. unfold ack. simpl. rewrite Hid.
  by rewrite lookup_insert_eq, insert_insert_eq.
Qed.

Lemma ack_same_identifier_witness :
  ack (mkResponse "rb-1756123230"
         [mkOrder "C001" "AAPL" "SELL" 5 1 "2025-08-25T12:00:30+00:00"])
      (ack (mkResponse "rb-1756123230" []) initial_state).2
  = (mkAck "ok" true "rb-1756123230" 1,
     (ack (mkResponse "rb-1756123230" []) initial_state).2).
Proof.
  by apply (ack_same_identifier (mkResponse "rb-1756123230" [])
              (mkResponse "rb-1756123230"
                 [mkOrder "C001" "AAPL" "SELL" 5 1 "2025-08-25T12:00:30+00:00"])).
Defined.

End ProviderFacts.

(** ** A rebalance against the stub, end to end *)

Section StubRebalanceFacts.
Import main judge_client.
Variable float_of_string : string -> option R.

Local Abbreviation rebalance_compute := (main.rebalance_compute float_of_string).
Local Abbreviation from_env := (judge_client.from_env float_of_string).

Lemma Rabs_bound (a b : R) : Rabs a <= b -> - b <= a <= b.
Proof. unfold Rabs. destruct (Rcase_abs a); lra. Qed.

Lemma find_price_some prices :
  Exists (fun p => PriceBar.ticker p = "AAPL") prices ->
  is_Some (find_price prices "AAPL" None).
Proof.
  unfold find_price. induction 1 as [p l Hp|p l _ IH]; simpl.
  - rewrite bool_decide_eq_true_2 by done. by eexists.
  - destruct (bool_decide _ && true); [by eexists|done].
Qed.

Lemma batch_accounts clk q price accounts :
  accountId <$> batch clk q price accounts = accounts.
Proof.
  unfold batch. generalize (now_iso clk).
  induction accounts as [|acc accounts IH]; intros ts; [done|].
  rewrite imap_cons. simpl. f_equal. apply IH.
Qed.

(** In stub mode, a computation for an explicit, non-empty account list,
    with a sentiment weight and fixture scores of magnitude at most one
    million (so that the quantity of line 192 stays far inside the range of
    floats and of machine integers), ends in one of two ways only: with the
    503 error when the price list holds no bar of AAPL, and otherwise with
    one order per requested account, in the order of the request (a repeated
    account gets repeated orders).  No other failure is possible. *)
Theorem rebalance_stub_outcome env net clk req fx judge a accounts :
  from_env env = Ok judge -> use_stub judge = true ->
  accountIds (filters req) = Some (a :: accounts) ->
  Rabs (sentimentWeight req) <= 1000000 ->
  Forall (fun s => Rabs (SentimentRecord.score s) <= 1000000)
         (STUB_SENTIMENT fx) ->
  (Forall other_ticker (STUB_PRICES fx) ->
   rebalance_compute env net clk req fx
   = HTTPException 503
       ("No price found for AAPL (asOf=" +:+ asOf req +:+
        "). Upload prices via /ingest/upload or configure Robo Judge."))
  /\
  (Exists (fun p => PriceBar.ticker p = "AAPL") (STUB_PRICES fx) ->
   exists resp,
     rebalance_compute env net clk req fx = Ok resp
     /\ accountId <$> orders resp = a :: accounts
     /\ Forall (fun o => (1 <= qty o <= 20000020000010)%Z) (orders resp)).
Proof.
  intros Hj Hs Hacc Hw Hscores.
  assert (resolve_accounts judge net fx req = Ok (a :: accounts)) as Ha
    by (unfold resolve_accounts; by rewrite Hacc).
  pose proof (resolve_price_stub judge net fx req Hs) as Hp.
  split.
  - intros Hnone. rewrite !find_price_none in Hp by done.
    by eapply rebalance_compute_no_price.
  - intros Hsome.
    assert (exists pb, resolve_price judge net fx req = Ok (Some pb))
      as [pb Hpb].
    { rewrite Hp. destruct (find_price _ _ (Some _)) as [pb|]; [by eexists|].
      destruct (find_price_some _ Hsome) as [pb ->]. by eexists. }
    assert (exists senti,
      get_sentiment judge net fx None None (Some ["AAPL"]) = Ok senti
      /\ Forall (fun s => Rabs (SentimentRecord.score s) <= 1000000) senti)
      as (senti & Hsenti & Hbound).
    { unfold get_sentiment. rewrite Hs. eexists. split; [done|].
      apply Forall_forall. intros s Hin.
      apply list_elem_of_In, filter_In in Hin as [Hin _].
      apply list_elem_of_In in Hin. by eapply Forall_forall in Hscores. }
    eexists. split; [by eapply rebalance_compute_ok|].
    cbn [orders]. split; [apply batch_accounts|].
    eapply Forall_impl; [apply batch_uniform|].
    intros o (_ & _ & -> & _). unfold qty_common.
    assert (Rabs (sentiment_tilt senti) <= 2000001) as Ht.
    { unfold sentiment_tilt.
      destruct (List.find _ senti) as [s|] eqn:Hfind.
      - apply find_some in Hfind as [Hin _].
        apply list_elem_of_In in Hin.
        eapply Forall_forall in Hbound; [|done].
        apply Rabs_le. apply Rabs_bound in Hbound. lra.
      - rewrite Rabs_R0. lra. }
    apply Rabs_bound in Hw, Ht.
    set (v := 10 * (1 + sentimentWeight req * sentiment_tilt senti)).
    assert (v <= IZR 20000020000010) as Hhi by (unfold v; nra).
    apply round_half_even_le in Hhi. lia.
Qed.

End StubRebalanceFacts.

Section StubRebalanceInstances.
Import main judge_client.

Lemma rebalance_stub_outcome_witness :
  rebalance_compute no_float stub_env offline noon request_c001
    (fixtures state_without_aapl)
  = HTTPException 503
      "No price found for AAPL (asOf=2025-08-25). Upload prices via /ingest/upload or configure Robo Judge."
  /\ exists resp,
       rebalance_compute no_float stub_env offline noon request_c001
         initial_fixtures = Ok resp
       /\ accountId <$> orders resp = ["C001"]
       /\ Forall (fun o => (1 <= qty o <= 20000020000010)%Z) (orders resp).
Proof.
  assert (Rabs (sentimentWeight request_c001) <= 1000000) as Hw
    by (apply Rabs_le; simpl; lra).
  split.
  - destruct (rebalance_stub_outcome no_float stub_env offline noon
                request_c001 (fixtures state_without_aapl)
                (init None None 10 None) "C001" []) as [H _];
      [reflexivity|reflexivity|reflexivity|exact Hw|apply Forall_nil_2|].
    apply H. repeat constructor; discriminate.
  - destruct (rebalance_stub_outcome no_float stub_env offline noon
                request_c001 initial_fixtures
                (init None None 10 None) "C001" []) as [_ H];
      [reflexivity|reflexivity|reflexivity|exact Hw| |].
    + simpl.
      repeat (apply Forall_cons_2; [apply Rabs_le; simpl; lra|]).
      apply Forall_nil_2.
    + apply H. by constructor.
Defined.

End StubRebalanceInstances.
